(** * ToastNotification: the Windows toast alert service of Gecko

    A shallow embedding of [widget/windows/ToastNotification.cpp] and the
    properties of its handler registry ([mActiveHandlers]): replacement of a
    handler by [ShowAlert], removal by [CloseAlert] and [RemoveHandler], the
    drain at "quit-application" ([Observe]), the screen-sharing suppression
    flag, the platform checks of [Init] and the registry-neutral
    [GetXmlStringForWindowsAlert]. *)

From Stdlib Require Import ZArith List Permutation.
From stdpp Require Import gmap strings list fin_maps.

Local Open Scope Z_scope.
Local Open Scope string_scope.
Local Open Scope list_scope.

(** ** XPCOM result codes

    [nsresult] is an unsigned 32-bit code whose top bit marks a failure.
    The numeric values are those of XPCOM's error list (nsError.h), which the
    source includes but which is not part of the translated file. *)
Module nsError.

Definition nsresult : Type := Z.

Definition NS_OK : nsresult := 0.
Definition NS_ERROR_NOT_IMPLEMENTED : nsresult := 0x80004001.
Definition NS_ERROR_FAILURE : nsresult := 0x80004005.
Definition NS_ERROR_INVALID_ARG : nsresult := 0x80070057.

(** [NS_FAILED(rv)] is [rv & 0x80000000]. *)
Definition NS_FAILED (rv : nsresult) : bool := Z.testbit rv 31.
Definition NS_SUCCEEDED (rv : nsresult) : bool := negb (NS_FAILED rv).

#[global] Arguments NS_FAILED : simpl never.

End nsError.
Export nsError.

(** ** Objects the service handles through pointers

    A pointer is the address of the object; [nullptr] is [None].  Two
    [RefPtr]s are equal when the addresses are. *)
Definition nsIObserver : Type := positive.
Definition nsIAlertAction : Type := positive.
Definition nsIThread : Type := positive.

(** The address of a [ToastNotificationHandler]. *)
Definition Handler : Type := positive.

(** The alert source, [nsIAlertNotification]: every getter gives a result
    code and fills its out-parameter. *)
Record nsIAlertNotification : Type := {
  GetCookie : nsresult * string;
  GetName : nsresult * string;
  GetTitle : nsresult * string;
  GetText : nsresult * string;
  GetTextClickable : nsresult * bool;
  GetSource : nsresult * string;
  GetRequireInteraction : nsresult * bool;
  GetActions : nsresult * list nsIAlertAction;
  GetImageURL : nsresult * string
}.

(** The members a [ToastNotificationHandler] receives from its constructor
    (the back pointer to the one service is left out). *)
Record ToastNotificationHandler : Type := {
  mAlertListener : option nsIObserver;
  mName : string;
  mCookie : string;
  mTitle : string;
  mMsg : string;
  mHostPort : string;
  mClickable : bool;
  mRequireInteraction : bool;
  mActions : list nsIAlertAction
}.

(** ** Calls that leave the translated file, in the order they happen *)
Inductive Getter : Type :=
  | gCookie | gName | gTitle | gText | gTextClickable
  | gSource | gRequireInteraction | gActions | gImageURL.

Inductive Event : Type :=
  | EvGetter (g : Getter)
  | EvNew (h : Handler) (listener : option nsIObserver)
  | EvInsertOrUpdate (name : string) (h : Handler)
  | EvRemove (name : string)
  | EvInitAlertAsync (h : Handler) (rv : nsresult)
  | EvUnregisterHandler (h : Handler)
  | EvCreateToastXmlString (h : Handler)
  | EvNewNamedThread (name : string)
  | EvAddObserver (topic : string).

#[global] Instance Getter_eq_dec : EqDecision Getter.
Proof. solve_decision. Defined.

#[global] Instance Event_eq_dec : EqDecision Event.
Proof. solve_decision. Defined.

(** ** The state: the members of [ToastNotification], the handlers created
    by [new], and the log of calls (oldest first). *)
Record World : Type := {
  mActiveHandlers : gmap string Handler;
  mSuppressForScreenSharing : bool;
  mBackgroundThread : option nsIThread;
  heap : gmap Handler ToastNotificationHandler;
  trace : list Event
}.

Definition set_mActiveHandlers (f : gmap string Handler → gmap string Handler)
    (w : World) : World :=
  {| mActiveHandlers := f (mActiveHandlers w);
     mSuppressForScreenSharing := mSuppressForScreenSharing w;
     mBackgroundThread := mBackgroundThread w;
     heap := heap w;
     trace := trace w |}.

Definition set_mSuppressForScreenSharing (b : bool) (w : World) : World :=
  {| mActiveHandlers := mActiveHandlers w;
     mSuppressForScreenSharing := b;
     mBackgroundThread := mBackgroundThread w;
     heap := heap w;
     trace := trace w |}.

Definition set_mBackgroundThread (t : option nsIThread) (w : World) : World :=
  {| mActiveHandlers := mActiveHandlers w;
     mSuppressForScreenSharing := mSuppressForScreenSharing w;
     mBackgroundThread := t;
     heap := heap w;
     trace := trace w |}.

Definition set_heap (f : gmap Handler ToastNotificationHandler →
                         gmap Handler ToastNotificationHandler)
    (w : World) : World :=
  {| mActiveHandlers := mActiveHandlers w;
     mSuppressForScreenSharing := mSuppressForScreenSharing w;
     mBackgroundThread := mBackgroundThread w;
     heap := f (heap w);
     trace := trace w |}.

Definition emit (e : Event) (w : World) : World :=
  {| mActiveHandlers := mActiveHandlers w;
     mSuppressForScreenSharing := mSuppressForScreenSharing w;
     mBackgroundThread := mBackgroundThread w;
     heap := heap w;
     trace := trace w ++ [e] |}.

(** ** Function bodies

    A statement either completes with a value ([inr]) or executes
    [return rv;] ([inl]), which skips the rest of the body. *)
Definition Body (A : Type) : Type := World → (nsresult + A) * World.

Definition ret {A : Type} (a : A) : Body A := λ w, (inr a, w).

Definition bind {A B : Type} (m : Body A) (k : A → Body B) : Body B := λ w,
  match m w with
  | (inl rv, w') => (inl rv, w')
  | (inr a, w') => k a w'
  end.

Declare Scope body_scope.
Delimit Scope body_scope with body.
Notation "x <~ y ; z" := (bind y (λ x, z))
  (at level 20, y at level 100, z at level 200, only parsing) : body_scope.
Notation "y ;; z" := (bind y (λ _, z))
  (at level 100, z at level 200, only parsing, right associativity)
  : body_scope.
Local Open Scope body_scope.

Definition Return {A : Type} (rv : nsresult) : Body A := λ w, (inl rv, w).

Definition read {A : Type} (f : World → A) : Body A := λ w, (inr (f w), w).

Definition update (f : World → World) : Body unit := λ w, (inr tt, f w).

(** [if (c) { ... }] without an [else]. *)
Definition when (c : bool) (then_ : Body unit) : Body unit :=
  if c then then_ else ret tt.

(** A pointer used as a condition. *)
Definition non_null {A : Type} (p : option A) : bool :=
  match p with
  | Some _ => true
  | None => false
  end.

(** A method: the body run to its [return]. *)
Definition Method : Type := World → nsresult * World.

Definition run (body : Body nsresult) : Method := λ w,
  match body w with
  | (inl rv, w') => (rv, w')
  | (inr rv, w') => (rv, w')
  end.

(** The calls made between two states: what was added to the log. *)
Definition emitted (w w' : World) : list Event :=
  drop (length (trace w)) (trace w').

(** The calls a method made. *)
Definition events (m : Method) (w : World) : list Event :=
  emitted w (m w).2.

(** [NS_ENSURE_ARG(arg)]: return NS_ERROR_INVALID_ARG on a null pointer. *)
Definition NS_ENSURE_ARG {A : Type} (arg : option A) : Body A :=
  match arg with
  | None => Return NS_ERROR_INVALID_ARG
  | Some a => ret a
  end.

(** [MOZ_TRY(aAlert->GetX(out))]: call the getter, return its code when it
    failed, go on with the value it filled in otherwise. *)
Definition MOZ_TRY {A : Type} (g : Getter) (call : nsresult * A) : Body A :=
  update (emit (EvGetter g));;
  if NS_FAILED call.1 then Return call.1 else ret call.2.

(** ** The hashtable [mActiveHandlers] *)
Definition InsertOrUpdate (name : string) (h : Handler) : Body unit :=
  update (λ w, emit (EvInsertOrUpdate name h)
                 (set_mActiveHandlers (λ m, <[name := h]> m) w)).

Definition Remove (name : string) : Body unit :=
  update (λ w, emit (EvRemove name)
                 (set_mActiveHandlers (λ m, delete name m) w)).

(** [new ToastNotificationHandler(...)]: an address no object has yet. *)
Definition new (obj : ToastNotificationHandler) : Body Handler := λ w,
  let h := fresh (dom (heap w)) in
  (inr h, emit (EvNew h (mAlertListener obj))
            (set_heap (λ hp, <[h := obj]> hp) w)).

(** [handler->UnregisterHandler()]: a call into the handler. *)
Definition UnregisterHandler (h : Handler) : Body unit :=
  update (emit (EvUnregisterHandler h)).

(** ** What [Init] asks of the platform *)
Record Platform : Type := {
  IsWin8OrLater : bool;
  (** [WinTaskbar::GetAppUserModelID(uid)]: whether an id was found, and
      the id. *)
  GetAppUserModelID : bool * string;
  PR_GetEnv : string → option string;
  (** [NS_NewNamedThread(name, getter_AddRefs(thread))] *)
  NS_NewNamedThread : string → nsresult * option nsIThread;
  (** whether [mozilla::services::GetObserverService()] is non-null *)
  GetObserverService : bool
}.

Section ToastNotification.

(** The methods of [ToastNotificationHandler] that give a result (the class
    is declared in ToastNotificationHandler.h).  [InitAlertAsync] submits the
    work and gives the code of the submission; like the getters of the alert
    and [UnregisterHandler], it is taken not to call back into the service
    before it returns. *)
Variable InitAlertAsync :
  ToastNotificationHandler → nsIAlertNotification → nsresult.
Variable CreateToastXmlString :
  ToastNotificationHandler → string → nsresult * string.

Definition call_InitAlertAsync (h : Handler) (obj : ToastNotificationHandler)
    (aAlert : nsIAlertNotification) : Body nsresult := λ w,
  let rv := InitAlertAsync obj aAlert in
  (inr rv, emit (EvInitAlertAsync h rv) w).

Definition call_CreateToastXmlString (h : Handler)
    (obj : ToastNotificationHandler) (imageURL : string)
    : Body (nsresult * string) := λ w,
  (inr (CreateToastXmlString obj imageURL), emit (EvCreateToastXmlString h) w).

Definition Init (p : Platform) : Method := run (
  when (negb (IsWin8OrLater p)) (Return NS_ERROR_NOT_IMPLEMENTED);;
  when (negb (GetAppUserModelID p).1)
    (when (negb (non_null (PR_GetEnv p "XPCSHELL_TEST_PROFILE_DIR")))
       (Return NS_ERROR_NOT_IMPLEMENTED));;
  update (emit (EvNewNamedThread "ToastBgThread"));;
  let created := NS_NewNamedThread p "ToastBgThread" in
  update (set_mBackgroundThread created.2);;
  let rv := created.1 in
  when (NS_FAILED rv) (Return rv);;
  when (GetObserverService p)
    (update (emit (EvAddObserver "quit-application")));;
  ret NS_OK).

(** The method gives a result code and fills [*aRetVal]. *)
Definition GetSuppressForScreenSharing
    : World → (nsresult * bool) * World := λ w,
  ((NS_OK, mSuppressForScreenSharing w), w).

Definition SetSuppressForScreenSharing (aSuppress : bool) : Method := run (
  update (set_mSuppressForScreenSharing aSuppress);;
  ret NS_OK).

(** The loop of [Observe] over the entries of the table. *)
Fixpoint drain (entries : list (string * Handler)) : Body unit :=
  match entries with
  | [] => ret tt
  | (name, handler) :: rest =>
      Remove name;;
      UnregisterHandler handler;;
      drain rest
  end.

Definition Observe : Method := run (
  entries <~ read (λ w, map_to_list (mActiveHandlers w));
  drain entries;;
  ret NS_OK).

Definition ShowAlert (aAlert : option nsIAlertNotification)
    (aAlertListener : option nsIObserver) : Method := run (
  aAlert <~ NS_ENSURE_ARG aAlert;
  suppress <~ read mSuppressForScreenSharing;
  when suppress (Return NS_OK);;
  cookie <~ MOZ_TRY gCookie (GetCookie aAlert);
  name <~ MOZ_TRY gName (GetName aAlert);
  title <~ MOZ_TRY gTitle (GetTitle aAlert);
  text <~ MOZ_TRY gText (GetText aAlert);
  textClickable <~ MOZ_TRY gTextClickable (GetTextClickable aAlert);
  hostPort <~ MOZ_TRY gSource (GetSource aAlert);
  requireInteraction <~
    MOZ_TRY gRequireInteraction (GetRequireInteraction aAlert);
  actions <~ MOZ_TRY gActions (GetActions aAlert);
  oldHandler <~ read (λ w, mActiveHandlers w !! name);
  let obj := {| mAlertListener := aAlertListener; mName := name;
                mCookie := cookie; mTitle := title; mMsg := text;
                mHostPort := hostPort; mClickable := textClickable;
                mRequireInteraction := requireInteraction;
                mActions := actions |} in
  handler <~ new obj;
  InsertOrUpdate name handler;;
  rv <~ call_InitAlertAsync handler obj aAlert;
  when (NS_FAILED rv)
    (Remove name;;
     UnregisterHandler handler;;
     Return rv);;
  match oldHandler with
  | Some old => UnregisterHandler old
  | None => ret tt
  end;;
  ret NS_OK).

Definition ShowPersistentNotification (aPersistentData : string)
    (aAlert : option nsIAlertNotification)
    (aAlertListener : option nsIObserver) : Method :=
  ShowAlert aAlert aAlertListener.

(** The method gives a result code and fills [aString] through
    [CreateToastXmlString]; [None] is [aString] left as the caller had it. *)
Definition GetXmlStringForWindowsAlert (aAlert : option nsIAlertNotification)
    : World → (nsresult * option string) * World := λ w,
  let body : Body (nsresult * string) :=
    aAlert <~ NS_ENSURE_ARG aAlert;
    cookie <~ MOZ_TRY gCookie (GetCookie aAlert);
    name <~ MOZ_TRY gName (GetName aAlert);
    title <~ MOZ_TRY gTitle (GetTitle aAlert);
    text <~ MOZ_TRY gText (GetText aAlert);
    textClickable <~ MOZ_TRY gTextClickable (GetTextClickable aAlert);
    hostPort <~ MOZ_TRY gSource (GetSource aAlert);
    requireInteraction <~
      MOZ_TRY gRequireInteraction (GetRequireInteraction aAlert);
    actions <~ MOZ_TRY gActions (GetActions aAlert);
    let obj := {| mAlertListener := None; mName := name;
                  mCookie := cookie; mTitle := title; mMsg := text;
                  mHostPort := hostPort; mClickable := textClickable;
                  mRequireInteraction := requireInteraction;
                  mActions := actions |} in
    handler <~ new obj;
    imageURL <~ MOZ_TRY gImageURL (GetImageURL aAlert);
    call_CreateToastXmlString handler obj imageURL in
  match body w with
  | (inl rv, w') => ((rv, None), w')
  | (inr res, w') => ((res.1, Some res.2), w')
  end.

Definition CloseAlert (aAlertName : string) : Method := run (
  handler <~ read (λ w, mActiveHandlers w !! aAlertName);
  match handler with
  | None => Return NS_OK
  | Some handler =>
      Remove aAlertName;;
      UnregisterHandler handler;;
      ret NS_OK
  end).

Definition IsActiveHandler (aAlertName : string) (aHandler : Handler)
    : Body bool :=
  handler <~ read (λ w, mActiveHandlers w !! aAlertName);
  match handler with
  | None => ret false
  | Some handler => ret (bool_decide (handler = aHandler))
  end.

(** A [void] method: only the state comes back. *)
Definition RemoveHandler (aAlertName : string) (aHandler : Handler)
    : World → World := λ w,
  let body : Body unit :=
    active <~ IsActiveHandler aAlertName aHandler;
    when active
      (Remove aAlertName;;
       UnregisterHandler aHandler) in
  (body w).2.

End ToastNotification.

(** ** The states the service can be in

    The constructor leaves the table empty and the flag clear; every public
    method may then be called with any argument, whatever the platform and
    the handlers answer. *)
Definition constructed : World :=
  {| mActiveHandlers := ∅;
     mSuppressForScreenSharing := false;
     mBackgroundThread := None;
     heap := ∅;
     trace := [] |}.

Inductive reachable : World → Prop :=
  | reach_constructed : reachable constructed
  | reach_Init p w : reachable w → reachable (Init p w).2
  | reach_SetSuppressForScreenSharing b w :
      reachable w → reachable (SetSuppressForScreenSharing b w).2
  | reach_Observe w : reachable w → reachable (Observe w).2
  | reach_ShowAlert init a l w :
      reachable w → reachable (ShowAlert init a l w).2
  | reach_GetXmlStringForWindowsAlert xml a w :
      reachable w → reachable (GetXmlStringForWindowsAlert xml a w).2
  | reach_CloseAlert n w : reachable w → reachable (CloseAlert n w).2
  | reach_RemoveHandler n h w : reachable w → reachable (RemoveHandler n h w).

(** ** The remaining entry points *)

Definition nsIRunnable : Type := positive.
Definition nsIPrincipal : Type := positive.

(** The arguments of [ShowAlertNotification] but the listener. *)
Record AlertArguments : Type := {
  aImageUrl : string;
  aAlertTitle : string;
  aAlertText : string;
  aAlertTextClickable : bool;
  aAlertCookie : string;
  aAlertName : string;
  aBidi : string;
  aLang : string;
  aData : string;
  aPrincipal : option nsIPrincipal;
  aInPrivateBrowsing : bool;
  aRequireInteraction : bool
}.

Section Entry_points.

Variable InitAlertAsync :
  ToastNotificationHandler → nsIAlertNotification → nsresult.

(** [do_CreateInstance(ALERT_NOTIFICATION_CONTRACTID)]: null, or a new
    alert; its [Init], called with the arguments, the silent flag and the
    vibration pattern, gives a code and leaves the alert it describes. *)
Variable do_CreateInstance :
  option (AlertArguments → bool → list Z → nsresult * nsIAlertNotification).

(** [thread->Dispatch(runnable, NS_DISPATCH_NORMAL)] *)
Variable Dispatch : nsIThread → nsIRunnable → nsresult.

(** The method dereferences [mBackgroundThread]; [None] is the call
    through a null pointer, which has no result. *)
Definition BackgroundDispatch (runnable : nsIRunnable)
    : World → option (nsresult * World) := λ w,
  match mBackgroundThread w with
  | None => None
  | Some thread => Some (Dispatch thread runnable, w)
  end.

Definition ShowAlertNotification (args : AlertArguments)
    (aAlertListener : option nsIObserver) : Method := run (
  alert <~ match do_CreateInstance with
           | None => Return NS_ERROR_FAILURE
           | Some alert => ret alert
           end;
  let vibrate : list Z := [] in
  let inited := alert args false vibrate in
  let rv := inited.1 in
  when (NS_FAILED rv) (Return rv);;
  λ w, let r := ShowAlert InitAlertAsync (Some inited.2) aAlertListener w in
       (inl r.1, r.2)).

Definition SetManualDoNotDisturb (aDoNotDisturb : bool) : Method := run (
  Return NS_ERROR_NOT_IMPLEMENTED).

(** The method gives a result code and would fill [*aRet]. *)
Definition GetManualDoNotDisturb : World → (nsresult * option bool) * World :=
  λ w, ((NS_ERROR_NOT_IMPLEMENTED, None), w).

End Entry_points.

(** ** A handler that calls back

    A handler is built with [this], the service, and [IsActiveHandler] and
    [RemoveHandler] are there for handlers to call.  [ShowAlert] above takes
    [InitAlertAsync] to submit the work and return; here the call is a step
    on the whole state, so that what runs before it returns (the handler, the
    alert it is given) may call the public methods.  The rest of the body is
    the same. *)
Section Calling_back.

Variable InitAlertAsync :
  Handler → ToastNotificationHandler → nsIAlertNotification →
  World → nsresult * World.



End Calling_back.


(** ** Vocabulary of the properties *)

(** The state with more calls in the log. *)
Definition log (evs : list Event) (w : World) : World :=
  {| mActiveHandlers := mActiveHandlers w;
     mSuppressForScreenSharing := mSuppressForScreenSharing w;
     mBackgroundThread := mBackgroundThread w;
     heap := heap w;
     trace := trace w ++ evs |}.

(** The result code of each getter of an alert. *)
Definition getter_code (a : nsIAlertNotification) (g : Getter) : nsresult :=
  match g with
  | gCookie => (GetCookie a).1
  | gName => (GetName a).1
  | gTitle => (GetTitle a).1
  | gText => (GetText a).1
  | gTextClickable => (GetTextClickable a).1
  | gSource => (GetSource a).1
  | gRequireInteraction => (GetRequireInteraction a).1
  | gActions => (GetActions a).1
  | gImageURL => (GetImageURL a).1
  end.

(** The getters both [ShowAlert] and [GetXmlStringForWindowsAlert] call
    before they build a handler, in the order of the calls. *)
Definition field_getters : list Getter :=
  [gCookie; gName; gTitle; gText; gTextClickable; gSource;
   gRequireInteraction; gActions].

(** Calling getters in order up to the first that fails: the getters
    called, and the one that failed. *)
Fixpoint try_getters (a : nsIAlertNotification) (gs : list Getter)
    : list Getter * option Getter :=
  match gs with
  | [] => ([], None)
  | g :: gs' =>
      if NS_FAILED (getter_code a g) then ([g], Some g)
      else let r := try_getters a gs' in (g :: r.1, r.2)
  end.

(** The handler the two methods build from an alert whose getters all
    succeeded. *)
Definition handler_of (a : nsIAlertNotification) (l : option nsIObserver)
    : ToastNotificationHandler :=
  {| mAlertListener := l;
     mName := (GetName a).2;
     mCookie := (GetCookie a).2;
     mTitle := (GetTitle a).2;
     mMsg := (GetText a).2;
     mHostPort := (GetSource a).2;
     mClickable := (GetTextClickable a).2;
     mRequireInteraction := (GetRequireInteraction a).2;
     mActions := (GetActions a).2 |}.

(** The state in which [handler->InitAlertAsync(aAlert)] has just given
    [rv]: the getters were called, the handler was made and put into the
    table under the name of the alert. *)
Definition inserted (a : nsIAlertNotification) (l : option nsIObserver)
    (rv : nsresult) (w : World) : World :=
  let h := fresh (dom (heap w)) in
  log (map EvGetter field_getters ++
       [EvNew h l; EvInsertOrUpdate (GetName a).2 h; EvInitAlertAsync h rv])
    (set_heap (λ hp, <[h := handler_of a l]> hp)
       (set_mActiveHandlers (λ m, <[(GetName a).2 := h]> m) w)).


(** Calls that change the table or tear a handler down. *)
Definition touches_registry (e : Event) : bool :=
  match e with
  | EvInsertOrUpdate _ _ | EvRemove _ | EvUnregisterHandler _ => true
  | _ => false
  end.

Definition is_getter_call (e : Event) : bool :=
  match e with
  | EvGetter _ => true
  | _ => false
  end.

(** Between [w] and [w'] nothing happened but calls of getters: the table,
    the objects and the flag are as they were. *)
Definition only_getters_called (w w' : World) : Prop :=
  mActiveHandlers w' = mActiveHandlers w ∧
  heap w' = heap w ∧
  mSuppressForScreenSharing w' = mSuppressForScreenSharing w ∧
  mBackgroundThread w' = mBackgroundThread w ∧
  forallb is_getter_call (emitted w w') = true.

(** The handler a call is made on. *)
Definition called_on (e : Event) : option Handler :=
  match e with
  | EvNew h _ | EvInitAlertAsync h _ | EvUnregisterHandler h
  | EvCreateToastXmlString h => Some h
  | _ => None
  end.

(** How often [UnregisterHandler] was called on [h]. *)
Definition unregister_calls (h : Handler) (evs : list Event) : nat :=
  count_occ Event_eq_dec evs (EvUnregisterHandler h).

(** The invariant of the table: its handlers are objects made by [new], and
    no handler sits under two names. *)
Definition wf (w : World) : Prop :=
  (∀ n h, mActiveHandlers w !! n = Some h → is_Some (heap w !! h)) ∧
  (∀ n1 n2 h, mActiveHandlers w !! n1 = Some h →
              mActiveHandlers w !! n2 = Some h → n1 = n2).

(** What holds of the table and the log between two calls: a handler of
    the table is an object built for the name it sits under, its submission
    was accepted and it was not unregistered; no handler was unregistered
    twice, and none before it was built. *)
Definition lifecycle_invariant (w : World) : Prop :=
  (∀ n h, mActiveHandlers w !! n = Some h →
     ∃ obj, heap w !! h = Some obj ∧ mName obj = n) ∧
  (∀ n h, mActiveHandlers w !! n = Some h →
     unregister_calls h (trace w) = 0%nat) ∧
  (∀ h, (unregister_calls h (trace w) ≤ 1)%nat) ∧
  (∀ h, heap w !! h = None → unregister_calls h (trace w) = 0%nat) ∧
  (∀ n h, mActiveHandlers w !! n = Some h →
     ∃ rv, In (EvInitAlertAsync h rv) (trace w) ∧ NS_FAILED rv = false).

(** The methods that are neither [Init] nor the setter of the flag. *)
Inductive other_call : World → World → Prop :=
  | other_ShowAlert init a l w : other_call w (ShowAlert init a l w).2
  | other_GetXmlStringForWindowsAlert xml a w :
      other_call w (GetXmlStringForWindowsAlert xml a w).2
  | other_CloseAlert n w : other_call w (CloseAlert n w).2
  | other_RemoveHandler n h w : other_call w (RemoveHandler n h w)
  | other_Observe w : other_call w (Observe w).2.

(** The position of the first getter that fails. *)
Definition first_failure (a : nsIAlertNotification) (gs : list Getter)
    (k : nat) : Prop :=
  (∃ g, gs !! k = Some g ∧ NS_FAILED (getter_code a g) = true) ∧
  (∀ j g, (j < k)%nat → gs !! j = Some g →
     NS_FAILED (getter_code a g) = false).

(** ** Sample data *)
Module Sample.

Definition alert (name title : string) : nsIAlertNotification :=
  {| GetCookie := (NS_OK, "cookie");
     GetName := (NS_OK, name);
     GetTitle := (NS_OK, title);
     GetText := (NS_OK, "text");
     GetTextClickable := (NS_OK, true);
     GetSource := (NS_OK, "example.org");
     GetRequireInteraction := (NS_OK, false);
     GetActions := (NS_OK, []);
     GetImageURL := (NS_OK, "") |}.

(** An alert whose title cannot be read. *)
Definition alert_without_title (name : string) : nsIAlertNotification :=
  {| GetCookie := (NS_OK, "cookie");
     GetName := (NS_OK, name);
     GetTitle := (NS_ERROR_FAILURE, "");
     GetText := (NS_OK, "text");
     GetTextClickable := (NS_OK, true);
     GetSource := (NS_OK, "example.org");
     GetRequireInteraction := (NS_OK, false);
     GetActions := (NS_OK, []);
     GetImageURL := (NS_OK, "") |}.

(** An alert whose image cannot be loaded. *)
Definition alert_with_bad_image (name title : string)
    : nsIAlertNotification :=
  {| GetCookie := (NS_OK, "cookie");
     GetName := (NS_OK, name);
     GetTitle := (NS_OK, title);
     GetText := (NS_OK, "text");
     GetTextClickable := (NS_OK, true);
     GetSource := (NS_OK, "example.org");
     GetRequireInteraction := (NS_OK, false);
     GetActions := (NS_OK, []);
     GetImageURL := (NS_OK, "bad:") |}.

(** A handler whose submission fails for the image "bad:". *)
Definition init (_ : ToastNotificationHandler) (a : nsIAlertNotification)
    : nsresult :=
  if bool_decide ((GetImageURL a).2 = "bad:") then NS_ERROR_FAILURE
  else NS_OK.

Definition xml (_ : ToastNotificationHandler) (_ : string)
    : nsresult * string := (NS_OK, "<toast/>").

(** The service after one accepted alert named "A". *)
Definition one_alert : World :=
  (ShowAlert init (Some (alert "A" "T1")) None constructed).2.

(** The same with the suppression flag set afterwards. *)
Definition one_alert_suppressed : World :=
  (SetSuppressForScreenSharing true one_alert).2.

(** Windows 7 with an application id, inside an xpcshell test. *)
Definition windows7_xpcshell : Platform :=
  {| IsWin8OrLater := false;
     GetAppUserModelID := (true, "Mozilla.Firefox");
     PR_GetEnv := λ name,
       if bool_decide (name = "XPCSHELL_TEST_PROFILE_DIR")
       then Some "/tmp/profile" else None;
     NS_NewNamedThread := λ _, (NS_OK, Some 1%positive);
     GetObserverService := true |}.

(** Windows 10 without an application id, inside an xpcshell test. *)
Definition windows10_xpcshell : Platform :=
  {| IsWin8OrLater := true;
     GetAppUserModelID := (false, "");
     PR_GetEnv := λ name,
       if bool_decide (name = "XPCSHELL_TEST_PROFILE_DIR")
       then Some "/tmp/profile" else None;
     NS_NewNamedThread := λ _, (NS_OK, Some 1%positive);
     GetObserverService := true |}.

(** An alert whose title and whose source cannot be read. *)
Definition alert_two_failures (name : string) : nsIAlertNotification :=
  {| GetCookie := (NS_OK, "cookie");
     GetName := (NS_OK, name);
     GetTitle := (NS_ERROR_FAILURE, "");
     GetText := (NS_OK, "text");
     GetTextClickable := (NS_OK, true);
     GetSource := (NS_ERROR_INVALID_ARG, "");
     GetRequireInteraction := (NS_OK, false);
     GetActions := (NS_OK, []);
     GetImageURL := (NS_OK, "") |}.

(** An alert whose image URL cannot be read. *)
Definition alert_without_image (name : string) : nsIAlertNotification :=
  {| GetCookie := (NS_OK, "cookie");
     GetName := (NS_OK, name);
     GetTitle := (NS_OK, "title");
     GetText := (NS_OK, "text");
     GetTextClickable := (NS_OK, true);
     GetSource := (NS_OK, "example.org");
     GetRequireInteraction := (NS_OK, false);
     GetActions := (NS_OK, []);
     GetImageURL := (NS_ERROR_FAILURE, "") |}.

Definition arguments : AlertArguments :=
  {| aImageUrl := ""; aAlertTitle := "T3"; aAlertText := "text";
     aAlertTextClickable := true; aAlertCookie := "cookie";
     aAlertName := "A"; aBidi := ""; aLang := ""; aData := "";
     aPrincipal := None; aInPrivateBrowsing := false;
     aRequireInteraction := false |}.

(** An alert component whose [Init] rejects an empty name. *)
Definition create
    : option (AlertArguments → bool → list Z →
              nsresult * nsIAlertNotification) :=
  Some (λ args _ _,
    (if bool_decide (aAlertName args = "") then NS_ERROR_INVALID_ARG
     else NS_OK,
     {| GetCookie := (NS_OK, aAlertCookie args);
        GetName := (NS_OK, aAlertName args);
        GetTitle := (NS_OK, aAlertTitle args);
        GetText := (NS_OK, aAlertText args);
        GetTextClickable := (NS_OK, aAlertTextClickable args);
        GetSource := (NS_OK, "");
        GetRequireInteraction := (NS_OK, aRequireInteraction args);
        GetActions := (NS_OK, []);
        GetImageURL := (NS_OK, aImageUrl args) |})).

Definition dispatch (_ : nsIThread) (_ : nsIRunnable) : nsresult := NS_OK.


End Sample.

(** * Properties *)

Lemma World_eq (w1 w2 : World) :
  mActiveHandlers w1 = mActiveHandlers w2 →
  mSuppressForScreenSharing w1 = mSuppressForScreenSharing w2 →
  mBackgroundThread w1 = mBackgroundThread w2 →
  heap w1 = heap w2 →
  trace w1 = trace w2 →
  w1 = w2.
Proof. destruct w1, w2; cbn; congruence. Qed.

(** Two results are equal when the codes and the fields of the states are;
    the logs are compared up to the bracketing of [++]. *)
Ltac world_eq :=
  try (apply (f_equal2 pair); [reflexivity|]);
  apply World_eq; cbn; rewrite <- ?app_assoc, ?app_nil_r; reflexivity.

Ltac try_getter c :=
  destruct (NS_FAILED c.1) eqn:?; cbn; [world_eq|].

Lemma log_nil w : log [] w = w.
Proof. world_eq. Qed.

Lemma emitted_log evs w w' :
  trace w' = trace w → emitted w (log evs w') = evs.
Proof. unfold emitted, log; cbn. intros ->. apply drop_app_length. Qed.

Lemma emitted_refl w : emitted w w = [].
Proof. unfold emitted. apply drop_all. Qed.

Lemma emitted_app evs w w' : trace w' = trace w ++ evs → emitted w w' = evs.
Proof. unfold emitted. intros ->. apply drop_app_length. Qed.

(** ** Getters: what is called, and which call fails *)

Lemma try_getters_called a gs :
  ∀ g, g ∈ (try_getters a gs).1 → g ∈ gs.
Proof.
  induction gs as [|g' gs IH]; cbn; intros g; [done|].
  destruct (NS_FAILED (getter_code a g')); cbn.
  - intros ->%list_elem_of_singleton. left.
  - intros [->|Hin]%elem_of_cons; [left | right; auto].
Qed.

(** A called getter that failed is the one that ended the calls. *)
Lemma try_getters_failed a gs g :
  g ∈ (try_getters a gs).1 →
  NS_FAILED (getter_code a g) = true →
  (try_getters a gs).2 = Some g.
Proof.
  induction gs as [|g' gs IH]; cbn; [by intros ?%elem_of_nil|].
  destruct (NS_FAILED (getter_code a g')) eqn:Hg'; cbn.
  - by intros ->%list_elem_of_singleton.
  - intros [->|Hin]%elem_of_cons Hg; [congruence | auto].
Qed.

Lemma try_getters_Some a gs g :
  (try_getters a gs).2 = Some g →
  NS_FAILED (getter_code a g) = true ∧ g ∈ (try_getters a gs).1.
Proof.
  induction gs as [|g' gs IH]; cbn; [done|].
  destruct (NS_FAILED (getter_code a g')) eqn:Hg'; cbn.
  - intros [= <-]. split; [done | left].
  - intros Hg. destruct (IH Hg). split; [done | by right].
Qed.

(** When none failed, all were called. *)
Lemma try_getters_None a gs :
  (try_getters a gs).2 = None → (try_getters a gs).1 = gs.
Proof.
  induction gs as [|g' gs IH]; cbn; [done|].
  destruct (NS_FAILED (getter_code a g')); cbn; [done|].
  intros Hg. by rewrite IH.
Qed.

(** ** The invariant of the table *)

Lemma wf_constructed : wf constructed.
Proof. split; intros *; cbn; by rewrite lookup_empty. Qed.

(** Dropping entries and making new objects keeps the invariant. *)
Lemma wf_subseteq w w' :
  mActiveHandlers w' ⊆ mActiveHandlers w →
  heap w ⊆ heap w' →
  wf w → wf w'.
Proof.
  intros Hm Hh [Hobj Hinj]. split.
  - intros n h Hn. eapply lookup_weaken in Hn; [|exact Hm].
    destruct (Hobj _ _ Hn) as [obj Hobj']. exists obj.
    by eapply lookup_weaken.
  - intros n1 n2 h H1 H2. eapply Hinj; by eapply lookup_weaken.
Qed.

Lemma wf_log evs w : wf w → wf (log evs w).
Proof. by apply wf_subseteq. Qed.

Lemma fresh_handler_unused w : heap w !! fresh (dom (heap w)) = None.
Proof. apply not_elem_of_dom, is_fresh. Qed.

(** A handler of the table is never the one [new] returns next. *)
Lemma wf_fresh_not_registered w n :
  wf w → mActiveHandlers w !! n ≠ Some (fresh (dom (heap w))).
Proof.
  intros [Hobj _] Hn. apply Hobj in Hn as [obj Hn].
  by rewrite fresh_handler_unused in Hn.
Qed.

(** Putting a new object under a name keeps the invariant. *)
Lemma wf_insert_fresh w w' n obj :
  let h := fresh (dom (heap w)) in
  mActiveHandlers w' = <[n := h]> (mActiveHandlers w) →
  heap w' = <[h := obj]> (heap w) →
  wf w → wf w'.
Proof.
  intros h Hm Hh Hwf. pose proof Hwf as [Hobj Hinj]. split.
  - intros n' h'. rewrite Hm, Hh, lookup_insert. case_decide as Hn.
    + intros [= <-]. rewrite lookup_insert_eq. eauto.
    + intros Hn'. destruct (Hobj _ _ Hn') as [obj' Hobj'].
      exists obj'. rewrite lookup_insert_ne; [done|].
      intros <-. subst h. by rewrite fresh_handler_unused in Hobj'.
  - intros n1 n2 h'. rewrite Hm, !lookup_insert.
    repeat case_decide; subst; try done.
    + intros [= <-] Hn2. by apply wf_fresh_not_registered in Hn2.
    + intros Hn1 [= <-]. by apply wf_fresh_not_registered in Hn1.
    + apply Hinj.
Qed.

Lemma foldl_delete_lookup (m : gmap string Handler)
    (entries : list (string * Handler)) (k : string) :
  foldl (λ m e, delete e.1 m) m entries !! k =
  if decide (k ∈ entries.*1) then None else m !! k.
Proof.
  revert m. induction entries as [|[n h] entries IH]; intros m; cbn.
  - case_decide as Hk; [by apply elem_of_nil in Hk | done].
  - rewrite IH. destruct (decide (k ∈ entries.*1)) as [Hin|Hnin].
    + by rewrite decide_True by (apply elem_of_cons; auto).
    + destruct (decide (k = n)) as [->|Hne].
      * rewrite decide_True by (apply elem_of_cons; auto).
        apply lookup_delete_eq.
      * rewrite decide_False by (by intros [?|?]%elem_of_cons).
        by apply lookup_delete_ne.
Qed.

Lemma foldl_delete_subseteq (m : gmap string Handler)
    (entries : list (string * Handler)) :
  foldl (λ m e, delete e.1 m) m entries ⊆ m.
Proof.
  apply map_subseteq_spec. intros k h. rewrite foldl_delete_lookup.
  by case_decide.
Qed.

(** Removing every entry of a table empties it. *)
Lemma foldl_delete_all (m : gmap string Handler) :
  foldl (λ m e, delete e.1 m) m (map_to_list m) = ∅.
Proof.
  apply map_eq. intros k. rewrite foldl_delete_lookup, lookup_empty.
  case_decide as Hk; [done|].
  destruct (m !! k) as [h|] eqn:Hm; [|done].
  exfalso. apply Hk. apply list_elem_of_fmap. exists (k, h).
  split; [done|]. by apply elem_of_map_to_list.
Qed.

(** The handlers of a table, one per entry. *)
Lemma wf_NoDup_handlers w : wf w → NoDup (map_to_list (mActiveHandlers w)).*2.
Proof.
  intros [_ Hinj]. apply NoDup_fmap_2_strong; [|apply NoDup_map_to_list].
  intros [n1 h1] [n2 h2] H1%elem_of_map_to_list H2%elem_of_map_to_list.
  cbn. intros <-. f_equal. eauto.
Qed.

(** [UnregisterHandler] calls of the loop of [Observe], counted. *)
Lemma unregister_calls_drain h (entries : list (string * Handler)) :
  unregister_calls h
    (flat_map (λ e, [EvRemove e.1; EvUnregisterHandler e.2]) entries) =
  count_occ Pos.eq_dec entries.*2 h.
Proof.
  unfold unregister_calls.
  induction entries as [|[n h'] entries IH]; [done|].
  change (count_occ Event_eq_dec
            (EvRemove n :: EvUnregisterHandler h' ::
             flat_map (λ e, [EvRemove e.1; EvUnregisterHandler e.2]) entries)
            (EvUnregisterHandler h) =
          count_occ Pos.eq_dec (h' :: entries.*2) h).
  rewrite count_occ_cons_neq by discriminate.
  destruct (decide (h' = h)) as [->|Hne].
  - rewrite !count_occ_cons_eq by done. by rewrite IH.
  - rewrite !count_occ_cons_neq by congruence. done.
Qed.

Section Methods.

Variable InitAlertAsync :
  ToastNotificationHandler → nsIAlertNotification → nsresult.
Variable CreateToastXmlString :
  ToastNotificationHandler → string → nsresult * string.

(** ** The methods in closed form *)

(** [ShowAlert] on a non-null alert, by cases: suppressed, a getter failed,
    the submission failed, the alert was accepted. *)
Lemma ShowAlert_eq a l w :
  ShowAlert InitAlertAsync (Some a) l w =
  if mSuppressForScreenSharing w then (NS_OK, w) else
  let r := try_getters a field_getters in
  let w1 := log (map EvGetter r.1) w in
  match r.2 with
  | Some g => (getter_code a g, w1)
  | None =>
      let name := (GetName a).2 in
      let obj := handler_of a l in
      let h := fresh (dom (heap w)) in
      let rv := InitAlertAsync obj a in
      let w2 :=
        log [EvNew h l; EvInsertOrUpdate name h; EvInitAlertAsync h rv]
          (set_heap (λ hp, <[h := obj]> hp)
             (set_mActiveHandlers (λ m, <[name := h]> m) w1)) in
      if NS_FAILED rv then
        (rv, log [EvRemove name; EvUnregisterHandler h]
               (set_mActiveHandlers (λ m, delete name m) w2))
      else
        (NS_OK, match mActiveHandlers w !! name with
                | Some old => log [EvUnregisterHandler old] w2
                | None => w2
                end)
  end.
Proof.
  unfold ShowAlert, run, bind, NS_ENSURE_ARG, read, ret, when; cbn.
  destruct (mSuppressForScreenSharing w) eqn:Hs; [done|].
  unfold field_getters, try_getters, getter_code.
  unfold MOZ_TRY, bind, update, Return, ret; cbn.
  try_getter (GetCookie a). try_getter (GetName a). try_getter (GetTitle a).
  try_getter (GetText a). try_getter (GetTextClickable a).
  try_getter (GetSource a). try_getter (GetRequireInteraction a).
  try_getter (GetActions a).
  unfold new, InsertOrUpdate, call_InitAlertAsync, Remove, UnregisterHandler,
    update.
  cbn. fold (handler_of a l).
  destruct (NS_FAILED (InitAlertAsync (handler_of a l) a)) eqn:Hrv; cbn.
  - world_eq.
  - destruct (mActiveHandlers w !! _); world_eq.
Qed.

Lemma ShowAlert_null l w :
  ShowAlert InitAlertAsync None l w = (NS_ERROR_INVALID_ARG, w).
Proof. reflexivity. Qed.

(** [GetXmlStringForWindowsAlert] on a non-null alert, by cases. *)
Lemma GetXmlStringForWindowsAlert_eq a w :
  GetXmlStringForWindowsAlert CreateToastXmlString (Some a) w =
  let r := try_getters a field_getters in
  let w1 := log (map EvGetter r.1) w in
  match r.2 with
  | Some g => ((getter_code a g, None), w1)
  | None =>
      let obj := handler_of a None in
      let h := fresh (dom (heap w)) in
      let w2 := log [EvNew h None; EvGetter gImageURL]
                  (set_heap (λ hp, <[h := obj]> hp) w1) in
      if NS_FAILED (GetImageURL a).1 then (((GetImageURL a).1, None), w2)
      else
        let res := CreateToastXmlString obj (GetImageURL a).2 in
        ((res.1, Some res.2), log [EvCreateToastXmlString h] w2)
  end.
Proof.
  unfold GetXmlStringForWindowsAlert, bind, NS_ENSURE_ARG, read, ret; cbn.
  unfold field_getters, try_getters, getter_code.
  unfold MOZ_TRY, bind, update, Return, ret; cbn.
  try_getter (GetCookie a). try_getter (GetName a). try_getter (GetTitle a).
  try_getter (GetText a). try_getter (GetTextClickable a).
  try_getter (GetSource a). try_getter (GetRequireInteraction a).
  try_getter (GetActions a).
  unfold new, call_CreateToastXmlString. cbn. fold (handler_of a None).
  destruct (NS_FAILED (GetImageURL a).1) eqn:Hrv; cbn; world_eq.
Qed.

Lemma GetXmlStringForWindowsAlert_null w :
  GetXmlStringForWindowsAlert CreateToastXmlString None w =
  ((NS_ERROR_INVALID_ARG, None), w).
Proof. reflexivity. Qed.

Lemma CloseAlert_eq n w :
  CloseAlert n w =
  match mActiveHandlers w !! n with
  | None => (NS_OK, w)
  | Some h => (NS_OK, log [EvRemove n; EvUnregisterHandler h]
                        (set_mActiveHandlers (λ m, delete n m) w))
  end.
Proof.
  unfold CloseAlert, run, bind, read; cbn.
  destruct (mActiveHandlers w !! n); cbn; [world_eq | done].
Qed.

Lemma RemoveHandler_eq n h w :
  RemoveHandler n h w =
  if decide (mActiveHandlers w !! n = Some h)
  then log [EvRemove n; EvUnregisterHandler h]
         (set_mActiveHandlers (λ m, delete n m) w)
  else w.
Proof.
  unfold RemoveHandler, IsActiveHandler, bind, read, when; cbn.
  destruct (mActiveHandlers w !! n) as [h'|] eqn:Hn; cbn.
  - case_bool_decide as Hh; case_decide as Hd; try congruence; cbn.
    + world_eq.
    + done.
  - case_decide; [congruence | done].
Qed.

Lemma IsActiveHandler_eq n h w :
  IsActiveHandler n h w =
  (inr (bool_decide (mActiveHandlers w !! n = Some h)), w).
Proof.
  unfold IsActiveHandler, bind, read, ret; cbn.
  destruct (mActiveHandlers w !! n) as [h'|]; cbn; [|done].
  do 2 f_equal. apply bool_decide_ext. split; congruence.
Qed.

(** The loop of [Observe]: every entry is removed, then its handler is
    unregistered, in the order of the iteration. *)
Lemma drain_eq entries w :
  drain entries w =
  (inr tt,
   log (flat_map (λ e, [EvRemove e.1; EvUnregisterHandler e.2]) entries)
     (set_mActiveHandlers (λ m, foldl (λ m e, delete e.1 m) m entries) w)).
Proof.
  revert w. induction entries as [|[n h] entries IH]; intros w.
  - cbn. unfold ret. f_equal. world_eq.
  - cbn. unfold bind, Remove, UnregisterHandler, update. cbn.
    rewrite IH. f_equal. world_eq.
Qed.

Lemma Observe_eq w :
  Observe w =
  let entries := map_to_list (mActiveHandlers w) in
  (NS_OK,
   log (flat_map (λ e, [EvRemove e.1; EvUnregisterHandler e.2]) entries)
     (set_mActiveHandlers (λ m, foldl (λ m e, delete e.1 m) m entries) w)).
Proof.
  unfold Observe, run, bind, read; cbn. by rewrite drain_eq.
Qed.

(** ** The four ways through [ShowAlert] *)

Lemma ShowAlert_suppressed_eq a l w :
  mSuppressForScreenSharing w = true →
  ShowAlert InitAlertAsync (Some a) l w = (NS_OK, w).
Proof. intros Hs. by rewrite ShowAlert_eq, Hs. Qed.

Lemma ShowAlert_getter_failed_eq a l w g :
  mSuppressForScreenSharing w = false →
  (try_getters a field_getters).2 = Some g →
  ShowAlert InitAlertAsync (Some a) l w =
  (getter_code a g, log (map EvGetter (try_getters a field_getters).1) w).
Proof. intros Hs Hg. by rewrite ShowAlert_eq, Hs; cbn zeta; rewrite Hg. Qed.

Lemma ShowAlert_rejected_eq a l w :
  let n := (GetName a).2 in
  let h := fresh (dom (heap w)) in
  let rv := InitAlertAsync (handler_of a l) a in
  mSuppressForScreenSharing w = false →
  (try_getters a field_getters).2 = None →
  NS_FAILED rv = true →
  ShowAlert InitAlertAsync (Some a) l w =
  (rv, log [EvRemove n; EvUnregisterHandler h]
         (set_mActiveHandlers (λ m, delete n m) (inserted a l rv w))).
Proof.
  intros n h rv Hs Hg Hrv. rewrite ShowAlert_eq, Hs; cbn zeta.
  rewrite Hg, (try_getters_None _ _ Hg). fold rv. rewrite Hrv.
  unfold inserted. world_eq.
Qed.

Lemma ShowAlert_accepted_eq a l w :
  let n := (GetName a).2 in
  let rv := InitAlertAsync (handler_of a l) a in
  mSuppressForScreenSharing w = false →
  (try_getters a field_getters).2 = None →
  NS_FAILED rv = false →
  ShowAlert InitAlertAsync (Some a) l w =
  (NS_OK, match mActiveHandlers w !! n with
          | Some old => log [EvUnregisterHandler old] (inserted a l rv w)
          | None => inserted a l rv w
          end).
Proof.
  intros n rv Hs Hg Hrv. rewrite ShowAlert_eq, Hs; cbn zeta.
  rewrite Hg, (try_getters_None _ _ Hg). fold rv n. rewrite Hrv.
  unfold inserted. destruct (mActiveHandlers w !! n); world_eq.
Qed.

Lemma In_getter_calls (e : Event) (gs : list Getter) :
  In e (map EvGetter gs) → is_getter_call e = true.
Proof. intros [g [<- _]]%in_map_iff. done. Qed.

(** A call that did not fail, with the flag clear, went all the way. *)
Lemma ShowAlert_succeeded_inv a l w :
  mSuppressForScreenSharing w = false →
  NS_FAILED (ShowAlert InitAlertAsync (Some a) l w).1 = false →
  (try_getters a field_getters).2 = None ∧
  NS_FAILED (InitAlertAsync (handler_of a l) a) = false.
Proof.
  intros Hs. rewrite ShowAlert_eq, Hs; cbn zeta.
  destruct (try_getters a field_getters).2 as [g|] eqn:Hg; cbn.
  - apply try_getters_Some in Hg as [Hg _]. congruence.
  - destruct (NS_FAILED (InitAlertAsync _ _)) eqn:Hrv; cbn; [congruence|done].
Qed.

(** A call that reached [InitAlertAsync] had the flag clear and read every
    field; the handler is the new object, the code is what the handler
    gave. *)
Lemma ShowAlert_submitted_inv a l w h rv :
  In (EvInitAlertAsync h rv) (events (ShowAlert InitAlertAsync (Some a) l) w) →
  mSuppressForScreenSharing w = false ∧
  (try_getters a field_getters).2 = None ∧
  h = fresh (dom (heap w)) ∧
  rv = InitAlertAsync (handler_of a l) a.
Proof.
  unfold events. rewrite ShowAlert_eq.
  destruct (mSuppressForScreenSharing w) eqn:Hs.
  { cbn. by rewrite emitted_refl. }
  cbn zeta. destruct (try_getters a field_getters).2 as [g|] eqn:Hg.
  { cbn [snd]. rewrite emitted_log by done.
    by intros ?%In_getter_calls. }
  rewrite (try_getters_None _ _ Hg).
  assert (∀ evs, In (EvInitAlertAsync h rv)
            (map EvGetter field_getters ++
             [EvNew (fresh (dom (heap w))) l;
              EvInsertOrUpdate (GetName a).2 (fresh (dom (heap w)));
              EvInitAlertAsync (fresh (dom (heap w)))
                (InitAlertAsync (handler_of a l) a)] ++ evs) →
          (∀ e, In e evs → touches_registry e = true) →
          h = fresh (dom (heap w)) ∧ rv = InitAlertAsync (handler_of a l) a)
    as Hin.
  { intros evs [Hin|Hin]%in_app_or Hevs.
    - by apply In_getter_calls in Hin.
    - cbn in Hin. destruct Hin as [|[|[[= <- <-]|Hin]]]; try done.
      by apply Hevs in Hin. }
  destruct (NS_FAILED (InitAlertAsync _ _)); cbn [snd].
  - erewrite emitted_app; [|cbn; rewrite <- !app_assoc; reflexivity].
    intros Hev. split_and!; try done; eapply Hin; try exact Hev.
    all: by intros e [<-|[<-|[]]].
  - destruct (mActiveHandlers w !! _).
    + erewrite emitted_app; [|cbn; rewrite <- !app_assoc; reflexivity].
      intros Hev. split_and!; try done; eapply Hin; try exact Hev.
      all: by intros e [<-|[]].
    + erewrite emitted_app; [|cbn; rewrite <- !app_assoc; reflexivity].
      intros Hev. split_and!; try done;
        apply (Hin []); try done; by rewrite app_nil_r.
Qed.

(** ** Every method keeps the invariant *)

Lemma heap_insert_fresh_subseteq w obj :
  heap w ⊆ <[fresh (dom (heap w)) := obj]> (heap w).
Proof. apply insert_subseteq, fresh_handler_unused. Qed.

Lemma ShowAlert_wf a l w : wf w → wf (ShowAlert InitAlertAsync a l w).2.
Proof.
  intros Hwf. destruct a as [a|]; [|done]. rewrite ShowAlert_eq.
  destruct (mSuppressForScreenSharing w); [done|]. cbn zeta.
  destruct (try_getters a field_getters).2; [by apply wf_log|].
  destruct (NS_FAILED _).
  - eapply wf_subseteq; [| |exact Hwf]; cbn.
    + rewrite delete_insert_eq. apply delete_subseteq.
    + apply heap_insert_fresh_subseteq.
  - eapply wf_insert_fresh; [| |exact Hwf];
      by destruct (mActiveHandlers w !! _).
Qed.

Lemma GetXmlStringForWindowsAlert_wf a w :
  wf w → wf (GetXmlStringForWindowsAlert CreateToastXmlString a w).2.
Proof.
  intros Hwf. destruct a as [a|]; [|done].
  rewrite GetXmlStringForWindowsAlert_eq. cbn zeta.
  destruct (try_getters a field_getters).2; [by apply wf_log|].
  destruct (NS_FAILED _);
    (eapply wf_subseteq; [| |exact Hwf]; cbn;
     [done | apply heap_insert_fresh_subseteq]).
Qed.

Lemma CloseAlert_wf n w : wf w → wf (CloseAlert n w).2.
Proof.
  intros Hwf. rewrite CloseAlert_eq.
  destruct (mActiveHandlers w !! n); [|done].
  eapply wf_subseteq; [| |exact Hwf]; cbn; [apply delete_subseteq | done].
Qed.

Lemma RemoveHandler_wf n h w : wf w → wf (RemoveHandler n h w).
Proof.
  intros Hwf. rewrite RemoveHandler_eq. case_decide; [|done].
  eapply wf_subseteq; [| |exact Hwf]; cbn; [apply delete_subseteq | done].
Qed.

Lemma Observe_wf w : wf w → wf (Observe w).2.
Proof.
  intros Hwf. rewrite Observe_eq.
  eapply wf_subseteq; [| |exact Hwf]; cbn;
    [apply foldl_delete_subseteq | done].
Qed.

Lemma Init_registry p w :
  mActiveHandlers (Init p w).2 = mActiveHandlers w ∧
  heap (Init p w).2 = heap w.
Proof.
  unfold Init, run, bind, when, update, Return, ret.
  destruct (IsWin8OrLater p), (GetAppUserModelID p).1,
    (non_null (PR_GetEnv p _)), (NS_FAILED _), (GetObserverService p);
    done.
Qed.

Lemma Init_wf p w : wf w → wf (Init p w).2.
Proof.
  intros Hwf. destruct (Init_registry p w) as [Hm Hh].
  eapply wf_subseteq; [by rewrite Hm | by rewrite Hh | exact Hwf].
Qed.

End Methods.

(** The invariant holds in every state the service can be in. *)
Lemma reachable_wf w : reachable w → wf w.
Proof.
  induction 1;
    auto using wf_constructed, Init_wf, Observe_wf, ShowAlert_wf,
      GetXmlStringForWindowsAlert_wf, CloseAlert_wf, RemoveHandler_wf.
Qed.

(** ** [ShowAlert] with a handler that calls back *)



Section Properties.

Variable InitAlertAsync :
  ToastNotificationHandler → nsIAlertNotification → nsresult.
Variable CreateToastXmlString :
  ToastNotificationHandler → string → nsresult * string.

(** ** Replacement *)

(** C1 (amended). When the flag is clear, the table holds [old] under the
    name of the alert and [ShowAlert] does not fail, then the calls are, in
    this order: the getters, [new], [InsertOrUpdate] of the new handler under
    the name, [InitAlertAsync] on it, [UnregisterHandler] on [old].  The new
    handler is an object that did not exist before, so it is not [old], and
    afterwards the table holds it, and only it, under the name. *)
Theorem ShowAlert_supersedes_old_handler
    (a : nsIAlertNotification) (l : option nsIObserver) (w : World)
    (old : Handler) :
  reachable w →
  mSuppressForScreenSharing w = false →
  mActiveHandlers w !! (GetName a).2 = Some old →
  NS_FAILED (ShowAlert InitAlertAsync (Some a) l w).1 = false →
  let n := (GetName a).2 in
  let r := ShowAlert InitAlertAsync (Some a) l w in
  ∃ h rv,
    h ≠ old ∧
    heap w !! h = None ∧
    heap r.2 !! h = Some (handler_of a l) ∧
    events (ShowAlert InitAlertAsync (Some a) l) w =
      map EvGetter field_getters ++
      [EvNew h l; EvInsertOrUpdate n h; EvInitAlertAsync h rv;
       EvUnregisterHandler old] ∧
    r.1 = NS_OK ∧
    mActiveHandlers r.2 = <[n := h]> (mActiveHandlers w) ∧
    (∀ h', mActiveHandlers r.2 !! n = Some h' ↔ h' = h).
Proof.
  intros Hwf%reachable_wf Hs Hold Hok n r.
  destruct (ShowAlert_succeeded_inv _ _ _ _ Hs Hok) as [Hg Hrv].
  subst r n. unfold events. rewrite (ShowAlert_accepted_eq _ _ _ _ Hs Hg Hrv).
  rewrite Hold. cbn [fst snd].
  exists (fresh (dom (heap w))), (InitAlertAsync (handler_of a l) a).
  split_and!.
  - intros Heq. apply (wf_fresh_not_registered w (GetName a).2 Hwf).
    congruence.
  - apply fresh_handler_unused.
  - cbn. apply lookup_insert_eq.
  - apply emitted_app. cbn. by rewrite <- !app_assoc.
  - done.
  - done.
  - intros h'. cbn. rewrite lookup_insert_eq. split; congruence.
Qed.

(** X4. A handler that was replaced is not the active one any more, and its
    [RemoveHandler] leaves the state, and so the newer handler, alone. *)
Lemma superseded_handler_loses
    (a : nsIAlertNotification) (l : option nsIObserver) (w : World)
    (old : Handler) :
  reachable w →
  mSuppressForScreenSharing w = false →
  mActiveHandlers w !! (GetName a).2 = Some old →
  NS_FAILED (ShowAlert InitAlertAsync (Some a) l w).1 = false →
  let n := (GetName a).2 in
  let w' := (ShowAlert InitAlertAsync (Some a) l w).2 in
  IsActiveHandler n old w' = (inr false, w') ∧
  RemoveHandler n old w' = w'.
Proof.
  intros Hwf%reachable_wf Hs Hold Hok n w'.
  destruct (ShowAlert_succeeded_inv _ _ _ _ Hs Hok) as [Hg Hrv].
  assert (mActiveHandlers w' !! n ≠ Some old) as Hne.
  { subst w' n. rewrite (ShowAlert_accepted_eq _ _ _ _ Hs Hg Hrv), Hold.
    cbn. rewrite lookup_insert_eq. intros [= Heq].
    by apply (wf_fresh_not_registered w (GetName a).2 Hwf); rewrite Heq. }
  split.
  - by rewrite IsActiveHandler_eq, bool_decide_eq_false_2.
  - by rewrite RemoveHandler_eq, decide_False.
Qed.


(** C10. When the table holds [old] under the name of the alert and the
    submission by [InitAlertAsync] fails, [ShowAlert] gives the failure code
    and leaves the table without an entry for the name, and [old] under no
    name at all; no call was made on [old], which is still the object it
    was. *)
Theorem ShowAlert_submission_failure_forgets_old_handler
    (a : nsIAlertNotification) (l : option nsIObserver) (w : World)
    (old h : Handler) (rv : nsresult) :
  reachable w →
  mActiveHandlers w !! (GetName a).2 = Some old →
  In (EvInitAlertAsync h rv)
     (events (ShowAlert InitAlertAsync (Some a) l) w) →
  NS_FAILED rv = true →
  let n := (GetName a).2 in
  let r := ShowAlert InitAlertAsync (Some a) l w in
  r.1 = rv ∧
  mActiveHandlers r.2 !! n = None ∧
  (∀ n', mActiveHandlers r.2 !! n' ≠ Some old) ∧
  unregister_calls old (events (ShowAlert InitAlertAsync (Some a) l) w)
    = 0%nat ∧
  Forall (λ e, called_on e ≠ Some old)
    (events (ShowAlert InitAlertAsync (Some a) l) w) ∧
  is_Some (heap w !! old) ∧
  heap r.2 !! old = heap w !! old.
Proof.
  intros Hwf%reachable_wf Hold (Hs & Hg & -> & ->)%ShowAlert_submitted_inv
    Hrv n r.
  assert (fresh (dom (heap w)) ≠ old) as Hne.
  { intros Heq. apply (wf_fresh_not_registered w n Hwf). subst n.
    congruence. }
  assert (events (ShowAlert InitAlertAsync (Some a) l) w =
          map EvGetter field_getters ++
          [EvNew (fresh (dom (heap w))) l;
           EvInsertOrUpdate n (fresh (dom (heap w)));
           EvInitAlertAsync (fresh (dom (heap w)))
             (InitAlertAsync (handler_of a l) a);
           EvRemove n; EvUnregisterHandler (fresh (dom (heap w)))]) as ->.
  { unfold events. rewrite (ShowAlert_rejected_eq _ _ _ _ Hs Hg Hrv).
    apply emitted_app. cbn. by rewrite <- !app_assoc. }
  subst r. rewrite (ShowAlert_rejected_eq _ _ _ _ Hs Hg Hrv).
  fold n. cbn [fst snd]. destruct Hwf as [Hobj Hinj]. split_and!.
  - done.
  - cbn. apply lookup_delete_eq.
  - intros n'. cbn. rewrite delete_insert_eq, lookup_delete.
    case_decide as Hn; [done|]. intros Hn'. apply Hn. by eapply Hinj.
  - unfold unregister_calls. apply count_occ_not_In.
    cbn. intros Hin. repeat destruct Hin as [Hin|Hin]; congruence.
  - cbn. repeat constructor; cbn; congruence.
  - by eapply Hobj.
  - cbn. by apply lookup_insert_ne.
Qed.

(** ** Removal *)

(** C2. [RemoveHandler(n, h)] removes the entry of [n] and unregisters [h]
    exactly when the table holds [h] itself under [n]; when a newer handler
    sits under [n], or none, the state is left as it was, so the newer
    handler stays. *)
Theorem RemoveHandler_only_if_current (n : string) (h : Handler) (w : World) :
  (mActiveHandlers w !! n = Some h →
     mActiveHandlers (RemoveHandler n h w) = delete n (mActiveHandlers w) ∧
     emitted w (RemoveHandler n h w) = [EvRemove n; EvUnregisterHandler h]) ∧
  (∀ newer, mActiveHandlers w !! n = Some newer → newer ≠ h →
     RemoveHandler n h w = w ∧
     mActiveHandlers (RemoveHandler n h w) !! n = Some newer) ∧
  (mActiveHandlers w !! n = None → RemoveHandler n h w = w) ∧
  (emitted w (RemoveHandler n h w) ≠ [] → mActiveHandlers w !! n = Some h).
Proof.
  rewrite RemoveHandler_eq. split_and!.
  - intros Hn. rewrite decide_True by done. split; [done|].
    by apply emitted_log.
  - intros newer Hn Hne. by rewrite decide_False by congruence.
  - intros Hn. by rewrite decide_False by congruence.
  - case_decide; [done|]. by rewrite emitted_refl.
Qed.

(** C7. [CloseAlert(n)] always gives NS_OK.  Without an entry for [n] it
    changes nothing; with one it first removes the entry, then unregisters
    the handler.  A second [CloseAlert(n)] right after changes nothing. *)
Theorem CloseAlert_succeeds_idempotent (n : string) (w : World) :
  (CloseAlert n w).1 = NS_OK ∧
  (mActiveHandlers w !! n = None → CloseAlert n w = (NS_OK, w)) ∧
  (∀ h, mActiveHandlers w !! n = Some h →
     mActiveHandlers (CloseAlert n w).2 = delete n (mActiveHandlers w) ∧
     events (CloseAlert n) w = [EvRemove n; EvUnregisterHandler h]) ∧
  CloseAlert n (CloseAlert n w).2 = (NS_OK, (CloseAlert n w).2).
Proof.
  unfold events. rewrite !CloseAlert_eq. split_and!.
  - by destruct (mActiveHandlers w !! n).
  - by intros ->.
  - intros h ->. split; [done | by apply emitted_log].
  - destruct (mActiveHandlers w !! n) eqn:Hn; cbn.
    + by rewrite lookup_delete_eq.
    + by rewrite Hn.
Qed.

(** ** Shutdown *)

(** C3. After [Observe] the table is empty and the result is NS_OK; the loop
    called [UnregisterHandler] once on every handler the table held and on no
    other; on an empty table [Observe] changes nothing. *)
Theorem Observe_drains_registry (w : World) :
  reachable w →
  (Observe w).1 = NS_OK ∧
  mActiveHandlers (Observe w).2 = ∅ ∧
  (∀ n h, mActiveHandlers w !! n = Some h →
     unregister_calls h (events Observe w) = 1%nat) ∧
  (∀ h, (∀ n, mActiveHandlers w !! n ≠ Some h) →
     unregister_calls h (events Observe w) = 0%nat) ∧
  (mActiveHandlers w = ∅ → Observe w = (NS_OK, w)).
Proof.
  intros Hwf%reachable_wf. unfold events. rewrite Observe_eq. cbn zeta.
  split_and!.
  - done.
  - cbn. apply foldl_delete_all.
  - intros n h Hn. cbn [snd]. rewrite emitted_log, unregister_calls_drain by done.
    apply NoDup_count_occ'; [by apply NoDup_ListNoDup, wf_NoDup_handlers|].
    apply list_elem_of_In, list_elem_of_fmap. exists (n, h).
    split; [done | by apply elem_of_map_to_list].
  - intros h Hh. cbn [snd]. rewrite emitted_log, unregister_calls_drain by done.
    apply count_occ_not_In. intros Hin%list_elem_of_In.
    apply list_elem_of_fmap in Hin as [[n h'] [-> Hin]].
    apply elem_of_map_to_list in Hin. by apply (Hh n).
  - intros ->. rewrite map_to_list_empty. cbn. f_equal. world_eq.
Qed.

(** ** Calls that fail before the table is touched *)

Lemma only_getters_called_log gs w :
  only_getters_called w (log (map EvGetter gs) w).
Proof.
  unfold only_getters_called. rewrite emitted_log by done. split_and!; try done.
  apply forallb_forall. intros e. apply In_getter_calls.
Qed.

Lemma In_EvGetter g gs : In (EvGetter g) (map EvGetter gs) → g ∈ gs.
Proof. intros [g' [[= ->] Hin]]%in_map_iff. by apply list_elem_of_In. Qed.

(** C5. A null alert ends [ShowAlert] and [GetXmlStringForWindowsAlert] with
    NS_ERROR_INVALID_ARG and the state as it was.  When one of the getters
    for cookie, name, title, text, textClickable, source, requireInteraction
    or actions is called and fails, the method gives the code of that getter,
    and nothing but calls of getters has happened: the table, the handlers
    and the flag are as they were. *)
Theorem getter_failure_aborts_call
    (aAlert : option nsIAlertNotification) (l : option nsIObserver)
    (w : World) :
  let s := ShowAlert InitAlertAsync aAlert l w in
  let x := GetXmlStringForWindowsAlert CreateToastXmlString aAlert w in
  (aAlert = None →
     s = (NS_ERROR_INVALID_ARG, w) ∧ x = ((NS_ERROR_INVALID_ARG, None), w)) ∧
  (∀ a g, aAlert = Some a → g ∈ field_getters →
     NS_FAILED (getter_code a g) = true →
     (In (EvGetter g) (emitted w s.2) →
        s.1 = getter_code a g ∧ only_getters_called w s.2) ∧
     (In (EvGetter g) (emitted w x.2) →
        x.1 = (getter_code a g, None) ∧ only_getters_called w x.2)).
Proof.
  intros s x. split; [by intros -> |].
  intros a g -> Hg Hfail. subst s x.
  rewrite ShowAlert_eq, GetXmlStringForWindowsAlert_eq. cbn zeta.
  destruct (try_getters a field_getters).2 as [g0|] eqn:Hg0.
  - assert (In (EvGetter g) (map EvGetter (try_getters a field_getters).1) →
            g0 = g) as Hsame.
    { intros Hin%In_EvGetter.
      pose proof (try_getters_failed _ _ _ Hin Hfail). congruence. }
    split.
    + destruct (mSuppressForScreenSharing w); cbn [fst snd].
      * by rewrite emitted_refl.
      * rewrite emitted_log by done. intros <-%Hsame.
        split; [done | apply only_getters_called_log].
    + cbn [fst snd]. rewrite emitted_log by done. intros <-%Hsame.
      split; [done | apply only_getters_called_log].
  - exfalso. rewrite <- (try_getters_None _ _ Hg0) in Hg.
    pose proof (try_getters_failed _ _ _ Hg Hfail). congruence.
Qed.

(** ** Suppression *)

(** With the flag clear, [ShowAlert] starts by reading the cookie. *)
Lemma ShowAlert_reads_cookie a l w :
  mSuppressForScreenSharing w = false →
  ∃ evs, events (ShowAlert InitAlertAsync (Some a) l) w =
         EvGetter gCookie :: evs.
Proof.
  intros Hs. unfold events. rewrite ShowAlert_eq, Hs. cbn zeta.
  unfold field_getters. set (rest := gName :: _).
  change (try_getters a (gCookie :: rest)) with
    (if NS_FAILED (getter_code a gCookie) then ([gCookie], Some gCookie)
     else (gCookie :: (try_getters a rest).1, (try_getters a rest).2)).
  destruct (NS_FAILED (getter_code a gCookie)); cbn [fst snd].
  { eexists. by apply emitted_app. }
  destruct (try_getters a rest).2; cbn [fst snd].
  { eexists. by apply emitted_app. }
  destruct (NS_FAILED _); [|destruct (mActiveHandlers w !! _)];
    cbn [fst snd]; eexists; apply emitted_app; cbn;
    rewrite <- ?app_assoc; reflexivity.
Qed.

Lemma SetSuppressForScreenSharing_eq b w :
  SetSuppressForScreenSharing b w = (NS_OK, set_mSuppressForScreenSharing b w).
Proof. reflexivity. Qed.

(** C6. With the flag set, [ShowAlert] on an alert gives NS_OK and leaves
    the state as it was: no call is made, no handler is built, the table is
    not changed.  Clearing the flag gives the state the service would have
    without the episode, in which [ShowAlert] reads the alert again. *)
Theorem ShowAlert_suppressed_noop
    (a : nsIAlertNotification) (l : option nsIObserver) (w : World) :
  let ws := (SetSuppressForScreenSharing true w).2 in
  let wc :=
    (SetSuppressForScreenSharing false
       (ShowAlert InitAlertAsync (Some a) l ws).2).2 in
  (SetSuppressForScreenSharing true w).1 = NS_OK ∧
  GetSuppressForScreenSharing ws = ((NS_OK, true), ws) ∧
  ShowAlert InitAlertAsync (Some a) l ws = (NS_OK, ws) ∧
  events (ShowAlert InitAlertAsync (Some a) l) ws = [] ∧
  mActiveHandlers ws = mActiveHandlers w ∧
  heap ws = heap w ∧
  wc = (SetSuppressForScreenSharing false w).2 ∧
  (mSuppressForScreenSharing w = false → wc = w) ∧
  (∀ a' l',
     In (EvGetter gCookie) (events (ShowAlert InitAlertAsync (Some a') l') wc)).
Proof.
  intros ws wc.
  assert (ShowAlert InitAlertAsync (Some a) l ws = (NS_OK, ws)) as Hnoop.
  { by apply ShowAlert_suppressed_eq. }
  assert (wc = (SetSuppressForScreenSharing false w).2) as Hwc.
  { subst wc. rewrite Hnoop. by apply World_eq. }
  split_and!; try done.
  - unfold events. rewrite Hnoop. apply emitted_refl.
  - intros Hs. rewrite Hwc. by apply World_eq.
  - intros a' l'. rewrite Hwc.
    destruct (ShowAlert_reads_cookie a' l'
                (set_mSuppressForScreenSharing false w))
      as [evs Hevs]; [done|].
    rewrite SetSuppressForScreenSharing_eq. cbn [snd]. rewrite Hevs. by left.
Qed.

(** ** Rendering only *)

(** C9. [GetXmlStringForWindowsAlert] leaves the table and the flag as they
    were, whatever the alert and the state, and however often it is called:
    none of its calls inserts into the table, removes from it or unregisters
    a handler, and the handler it builds is a new object without listener. *)
Theorem GetXmlStringForWindowsAlert_keeps_registry
    (aAlert : option nsIAlertNotification) (w : World)
    (again : list (option nsIAlertNotification)) :
  let w' := (GetXmlStringForWindowsAlert CreateToastXmlString aAlert w).2 in
  mActiveHandlers w' = mActiveHandlers w ∧
  mSuppressForScreenSharing w' = mSuppressForScreenSharing w ∧
  forallb (λ e, negb (touches_registry e)) (emitted w w') = true ∧
  (∀ h l, In (EvNew h l) (emitted w w') →
     l = None ∧ heap w !! h = None ∧
     ∃ obj, heap w' !! h = Some obj ∧ mAlertListener obj = None) ∧
  mActiveHandlers
    (foldl (λ w a,
              (GetXmlStringForWindowsAlert CreateToastXmlString a w).2)
       w (aAlert :: again)) = mActiveHandlers w.
Proof.
  assert (∀ a w,
    mActiveHandlers
      (GetXmlStringForWindowsAlert CreateToastXmlString a w).2 =
    mActiveHandlers w) as Hframe.
  { intros [a|] w0; [|done]. rewrite GetXmlStringForWindowsAlert_eq.
    cbn zeta. destruct (try_getters a field_getters).2; [done|].
    by destruct (NS_FAILED _). }
  intros w'. split_and!.
  - apply Hframe.
  - subst w'. destruct aAlert as [a|]; [|done].
    rewrite GetXmlStringForWindowsAlert_eq. cbn zeta.
    destruct (try_getters a field_getters).2; [done|].
    by destruct (NS_FAILED _).
  - subst w'. destruct aAlert as [a|]; [|by rewrite emitted_refl].
    rewrite GetXmlStringForWindowsAlert_eq. cbn zeta.
    assert (∀ gs, forallb (λ e, negb (touches_registry e))
                    (map EvGetter gs) = true) as Hgs.
    { intros gs. apply forallb_forall. by intros e [g [<- _]]%in_map_iff. }
    destruct (try_getters a field_getters).2.
    { cbn [snd]. by rewrite emitted_log. }
    destruct (NS_FAILED _); cbn [snd];
      (erewrite emitted_app; [|cbn; rewrite <- !app_assoc; reflexivity]);
      rewrite forallb_app, Hgs; done.
  - intros h l. subst w'. destruct aAlert as [a|]; [|by rewrite emitted_refl].
    rewrite GetXmlStringForWindowsAlert_eq. cbn zeta.
    destruct (try_getters a field_getters).2.
    { cbn [snd]. rewrite emitted_log by done. by intros ?%In_getter_calls. }
    assert (∀ evs, (∀ e, In e evs → ∀ h l, e ≠ EvNew h l) →
              In (EvNew h l)
                (map EvGetter (try_getters a field_getters).1 ++
                 EvNew (fresh (dom (heap w))) None :: evs) →
              l = None ∧ h = fresh (dom (heap w))) as Hin.
    { intros evs Hevs [?%In_getter_calls|[[= <- <-]|Hin]]%in_app_or;
        [done|done|]. by destruct (Hevs _ Hin h l). }
    destruct (NS_FAILED _); cbn [snd];
      (erewrite emitted_app; [|cbn; rewrite <- !app_assoc; reflexivity]);
      intros [-> ->]%Hin;
      try (split_and!; [done | apply fresh_handler_unused |
                        eexists; split; [apply lookup_insert_eq | done]]).
    all: intros e He; repeat destruct He as [<-|He]; done.
  - cbn [foldl]. fold w'. rewrite <- (Hframe aAlert w). fold w'.
    generalize w'. clear w'. induction again as [|a' again IH]; [done|].
    intros w0. cbn [foldl]. by rewrite IH, Hframe.
Qed.

(** ** Start-up *)

(** C8 (amended).  On a Windows before 8, [Init] gives
    NS_ERROR_NOT_IMPLEMENTED whatever the environment holds.  On Windows 8
    or later without an application id it gives NS_ERROR_NOT_IMPLEMENTED
    unless XPCSHELL_TEST_PROFILE_DIR is set.  Otherwise it creates the thread
    "ToastBgThread", gives the failure code of the creation when there is
    one, and else registers for "quit-application" (when there is an
    observer service) and gives NS_OK. *)
Theorem Init_platform_checks (p : Platform) (w : World) :
  let marker := PR_GetEnv p "XPCSHELL_TEST_PROFILE_DIR" in
  let created := NS_NewNamedThread p "ToastBgThread" in
  (IsWin8OrLater p = false → Init p w = (NS_ERROR_NOT_IMPLEMENTED, w)) ∧
  (IsWin8OrLater p = true → (GetAppUserModelID p).1 = false →
     marker = None → Init p w = (NS_ERROR_NOT_IMPLEMENTED, w)) ∧
  (IsWin8OrLater p = true →
     (GetAppUserModelID p).1 = true ∨ is_Some marker →
     (Init p w).1 = (if NS_FAILED created.1 then created.1 else NS_OK) ∧
     mBackgroundThread (Init p w).2 = created.2 ∧
     events (Init p) w =
       EvNewNamedThread "ToastBgThread" ::
       (if NS_FAILED created.1 then []
        else if GetObserverService p then [EvAddObserver "quit-application"]
        else [])).
Proof.
  intros marker created. subst marker created.
  unfold events, Init, run, bind, when, update, Return, ret. split_and!.
  - by intros ->.
  - by intros -> -> ->.
  - intros -> Hid.
    assert (negb (GetAppUserModelID p).1 &&
            negb (non_null (PR_GetEnv p "XPCSHELL_TEST_PROFILE_DIR")) = false)
      as Hgo.
    { destruct Hid as [->|[v ->]]; [done|]. apply andb_false_r. }
    destruct (GetAppUserModelID p).1, (non_null (PR_GetEnv p _));
      try discriminate Hgo; cbn [negb];
      destruct (NS_FAILED _), (GetObserverService p); cbn [fst snd];
      (split_and!; [done | done |]); apply emitted_app; cbn;
      rewrite <- ?app_assoc; reflexivity.
Qed.

End Properties.


(** * Further properties *)

(** ** Counting [UnregisterHandler] calls *)

#[local] Arguments unregister_calls : simpl never.

Lemma unregister_calls_app h evs1 evs2 :
  unregister_calls h (evs1 ++ evs2) =
  (unregister_calls h evs1 + unregister_calls h evs2)%nat.
Proof. apply count_occ_app. Qed.

Lemma unregister_calls_cons h e evs :
  unregister_calls h (e :: evs) =
  ((if decide (e = EvUnregisterHandler h) then 1 else 0) +
   unregister_calls h evs)%nat.
Proof.
  unfold unregister_calls. case_decide as He.
  - by rewrite count_occ_cons_eq.
  - by rewrite count_occ_cons_neq.
Qed.

Lemma unregister_calls_nil h : unregister_calls h [] = 0%nat.
Proof. done. Qed.

Lemma unregister_calls_getters h gs :
  unregister_calls h (map EvGetter gs) = 0%nat.
Proof.
  induction gs as [|g gs IH]; [done|]. cbn [map].
  rewrite unregister_calls_cons, IH. by rewrite decide_False.
Qed.

(** Evaluate the count on a list written out. *)
Ltac count_unregister_calls :=
  repeat first
    [ rewrite unregister_calls_app
    | rewrite unregister_calls_getters
    | rewrite unregister_calls_nil
    | rewrite unregister_calls_cons ];
  repeat case_decide; simplify_eq; try lia.

(** ** The life of a handler *)

Lemma lifecycle_constructed : lifecycle_invariant constructed.
Proof.
  unfold lifecycle_invariant; cbn.
  split_and!; intros *; rewrite ?lookup_empty, ?unregister_calls_nil;
    try done. lia.
Qed.

(** Under the invariant no handler sits under two names. *)
Lemma lifecycle_one_name w n1 n2 h :
  lifecycle_invariant w →
  mActiveHandlers w !! n1 = Some h →
  mActiveHandlers w !! n2 = Some h →
  n1 = n2.
Proof.
  intros (Hobj & _) H1 H2.
  destruct (Hobj _ _ H1) as (obj1 & Hh1 & <-).
  destruct (Hobj _ _ H2) as (obj2 & Hh2 & <-). congruence.
Qed.

(** One step of the service: entries stay or are put in for a handler just
    built and accepted; a handler is unregistered at most once, when it was
    in the table or was just built, and it is then not in the table. *)
Lemma lifecycle_step w w' evs :
  lifecycle_invariant w →
  trace w' = trace w ++ evs →
  heap w ⊆ heap w' →
  (∀ n h, mActiveHandlers w' !! n = Some h →
     mActiveHandlers w !! n = Some h ∨
     (heap w !! h = None ∧
      ∃ obj rv, heap w' !! h = Some obj ∧ mName obj = n ∧
                In (EvInitAlertAsync h rv) evs ∧ NS_FAILED rv = false)) →
  (∀ h, (unregister_calls h evs ≤ 1)%nat) →
  (∀ h, unregister_calls h evs = 1%nat →
     ((∃ n, mActiveHandlers w !! n = Some h) ∨
      (heap w !! h = None ∧ is_Some (heap w' !! h))) ∧
     ∀ n, mActiveHandlers w' !! n ≠ Some h) →
  lifecycle_invariant w'.
Proof.
  intros (Hobj & Hlive & Honce & Hnone & Hacc) Htr Hheap Hreg Hle Hun.
  assert (∀ h, unregister_calls h evs = 0%nat ∨
               unregister_calls h evs = 1%nat) as Hcases.
  { intros h. specialize (Hle h). lia. }
  assert (∀ h, unregister_calls h evs = 1%nat →
               unregister_calls h (trace w) = 0%nat) as Hfirst.
  { intros h [[[n Hn]|[Hh _]] _]%Hun; eauto. }
  assert (∀ n h, mActiveHandlers w' !! n = Some h →
                 unregister_calls h evs = 0%nat) as Hkept.
  { intros n h Hn. destruct (Hcases h) as [|H1]; [done|].
    apply Hun in H1 as [_ H1]. by destruct (H1 n). }
  unfold lifecycle_invariant. rewrite Htr. split_and!.
  - intros n h [Hn|(_ & obj & _ & Hh & Hname & _)]%Hreg; [|eauto].
    destruct (Hobj _ _ Hn) as (obj & Hh & Hname). exists obj.
    split; [by eapply lookup_weaken | done].
  - intros n h Hn. rewrite unregister_calls_app, (Hkept _ _ Hn).
    apply Hreg in Hn as [Hn|[Hh _]]; [rewrite (Hlive _ _ Hn)|
                                      rewrite (Hnone _ Hh)]; done.
  - intros h. rewrite unregister_calls_app. specialize (Honce h).
    destruct (Hcases h) as [H0|H1]; [lia|]. rewrite (Hfirst _ H1). lia.
  - intros h Hh. rewrite unregister_calls_app.
    assert (heap w !! h = None) as Hh0.
    { destruct (heap w !! h) as [obj|] eqn:Hobj0; [|done].
      eapply lookup_weaken in Hobj0; [|exact Hheap]. congruence. }
    rewrite (Hnone _ Hh0). destruct (Hcases h) as [H0|H1]; [lia|].
    apply Hun in H1 as [[[n Hn]|[_ [obj Hobj']]] _].
    + destruct (Hobj _ _ Hn) as (obj & Hobj0 & _). congruence.
    + congruence.
  - intros n h [Hn|(_ & obj & rv & _ & _ & Hin & Hrv)]%Hreg.
    + destruct (Hacc _ _ Hn) as (rv & Hin & Hrv). exists rv.
      split; [apply in_or_app; by left | done].
    + exists rv. split; [apply in_or_app; by right | done].
Qed.

(** A step that unregisters nothing and leaves the table as it is. *)
Lemma lifecycle_quiet w w' evs :
  lifecycle_invariant w →
  trace w' = trace w ++ evs →
  heap w ⊆ heap w' →
  mActiveHandlers w' = mActiveHandlers w →
  (∀ h, unregister_calls h evs = 0%nat) →
  lifecycle_invariant w'.
Proof.
  intros Hinv Htr Hheap Hreg Hev.
  eapply lifecycle_step; [exact Hinv | exact Htr | exact Hheap | | |].
  - intros n h Hn. left. by rewrite <- Hreg.
  - intros h. rewrite Hev. lia.
  - intros h. rewrite Hev. done.
Qed.

Lemma unregister_calls_removal h h0 n :
  unregister_calls h [EvRemove n; EvUnregisterHandler h0] =
  if decide (h0 = h) then 1%nat else 0%nat.
Proof. count_unregister_calls. Qed.

Lemma unregister_calls_rejected h h0 l n rv gs :
  unregister_calls h
    (map EvGetter gs ++
     [EvNew h0 l; EvInsertOrUpdate n h0; EvInitAlertAsync h0 rv;
      EvRemove n; EvUnregisterHandler h0]) =
  if decide (h0 = h) then 1%nat else 0%nat.
Proof. count_unregister_calls. Qed.

Lemma unregister_calls_replaced h h0 old l n rv gs :
  unregister_calls h
    (map EvGetter gs ++
     [EvNew h0 l; EvInsertOrUpdate n h0; EvInitAlertAsync h0 rv;
      EvUnregisterHandler old]) =
  if decide (old = h) then 1%nat else 0%nat.
Proof. count_unregister_calls. Qed.

Lemma unregister_calls_inserted h h0 l n rv gs :
  unregister_calls h
    (map EvGetter gs ++
     [EvNew h0 l; EvInsertOrUpdate n h0; EvInitAlertAsync h0 rv]) = 0%nat.
Proof. count_unregister_calls. Qed.

(** Removing the entry of [n] and unregistering its handler. *)
Lemma lifecycle_removal w n h :
  lifecycle_invariant w →
  mActiveHandlers w !! n = Some h →
  lifecycle_invariant
    (log [EvRemove n; EvUnregisterHandler h]
       (set_mActiveHandlers (λ m, delete n m) w)).
Proof.
  intros Hinv Hn.
  eapply lifecycle_step; [exact Hinv | reflexivity | done | | |]; cbn.
  - intros n' h' [_ Hn']%lookup_delete_Some. by left.
  - intros h'. rewrite unregister_calls_removal. case_decide; lia.
  - intros h'. rewrite unregister_calls_removal.
    case_decide as Hh; [subst h'|done]. intros _. split; [eauto|].
    intros n' [Hne Hn']%lookup_delete_Some. apply Hne.
    by eapply lifecycle_one_name.
Qed.

Lemma CloseAlert_lifecycle n w :
  lifecycle_invariant w → lifecycle_invariant (CloseAlert n w).2.
Proof.
  intros Hinv. rewrite CloseAlert_eq.
  destruct (mActiveHandlers w !! n) eqn:Hn; [|done].
  by apply lifecycle_removal.
Qed.

Lemma RemoveHandler_lifecycle n h w :
  lifecycle_invariant w → lifecycle_invariant (RemoveHandler n h w).
Proof.
  intros Hinv. rewrite RemoveHandler_eq. case_decide; [|done].
  by apply lifecycle_removal.
Qed.

Lemma Observe_lifecycle w :
  lifecycle_invariant w → lifecycle_invariant (Observe w).2.
Proof.
  intros Hinv. rewrite Observe_eq. cbn zeta.
  assert (NoDup (map_to_list (mActiveHandlers w)).*2) as Hnodup.
  { apply NoDup_fmap_2_strong; [|apply NoDup_map_to_list].
    intros [n1 h1] [n2 h2] H1%elem_of_map_to_list H2%elem_of_map_to_list.
    cbn. intros <-. f_equal. by eapply lifecycle_one_name. }
  eapply lifecycle_step; [exact Hinv | reflexivity | done | | |]; cbn.
  - intros n h. by rewrite foldl_delete_all, lookup_empty.
  - intros h. rewrite unregister_calls_drain.
    by apply NoDup_count_occ, NoDup_ListNoDup.
  - intros h. rewrite unregister_calls_drain. intros Hh. split.
    + left. assert (In h (map_to_list (mActiveHandlers w)).*2) as Hin.
      { apply (count_occ_In Pos.eq_dec). lia. }
      apply list_elem_of_In, list_elem_of_fmap in Hin as [[n h'] [-> Hin]].
      exists n. by apply elem_of_map_to_list.
    + intros n. by rewrite foldl_delete_all, lookup_empty.
Qed.

Lemma ShowAlert_lifecycle init a l w :
  lifecycle_invariant w → lifecycle_invariant (ShowAlert init a l w).2.
Proof.
  intros Hinv. destruct a as [a|]; [|done]. rewrite ShowAlert_eq.
  destruct (mSuppressForScreenSharing w); [done|]. cbn zeta.
  destruct (try_getters a field_getters).2 eqn:Hg.
  { eapply lifecycle_quiet; [exact Hinv | reflexivity | done | done |].
    intros h. apply unregister_calls_getters. }
  rewrite (try_getters_None _ _ Hg).
  pose proof Hinv as (Hobj & _).
  assert (∀ n, mActiveHandlers w !! n ≠ Some (fresh (dom (heap w))))
    as Hfresh.
  { intros n [obj [Hh _]]%Hobj. by rewrite fresh_handler_unused in Hh. }
  set (h := fresh (dom (heap w))) in *. set (n := (GetName a).2).
  destruct (NS_FAILED (init (handler_of a l) a)) eqn:Hrv; cbn [snd].
  - eapply (lifecycle_step w _
              (map EvGetter field_getters ++
               [EvNew h l; EvInsertOrUpdate n h;
                EvInitAlertAsync h (init (handler_of a l) a);
                EvRemove n; EvUnregisterHandler h])); [exact Hinv | | | | |].
    + cbn. rewrite <- !app_assoc. reflexivity.
    + cbn. apply heap_insert_fresh_subseteq.
    + cbn. intros n' h'. rewrite delete_insert_eq.
      intros [_ Hn']%lookup_delete_Some. by left.
    + intros h'. rewrite unregister_calls_rejected.
      case_decide; lia.
    + intros h'. rewrite unregister_calls_rejected.
      case_decide as Hh; [subst h'|done]. intros _. split.
      * right. split; [apply fresh_handler_unused|].
        cbn. rewrite lookup_insert_eq. eauto.
      * cbn. intros n'. rewrite delete_insert_eq.
        intros [_ Hn']%lookup_delete_Some. by apply (Hfresh n').
  - assert (∀ n' h', <[n := h]> (mActiveHandlers w) !! n' = Some h' →
        mActiveHandlers w !! n' = Some h' ∨
        (heap w !! h' = None ∧
         ∃ obj rv, <[h := handler_of a l]> (heap w) !! h' = Some obj ∧
                   mName obj = n' ∧
                   In (EvInitAlertAsync h' rv)
                     (map EvGetter field_getters ++
                      [EvNew h l; EvInsertOrUpdate n h;
                       EvInitAlertAsync h (init (handler_of a l) a)]) ∧
                   NS_FAILED rv = false)) as Hreg.
    { intros n' h'. rewrite lookup_insert. case_decide as Hn'; [|by left].
      intros [= <-]. subst n'. right. split; [apply fresh_handler_unused|].
      exists (handler_of a l), (init (handler_of a l) a).
      rewrite lookup_insert_eq. split_and!; try done.
      apply in_or_app. right. cbn. tauto. }
    destruct (mActiveHandlers w !! n) as [old|] eqn:Hold.
    + eapply (lifecycle_step w _
                (map EvGetter field_getters ++
                 [EvNew h l; EvInsertOrUpdate n h;
                  EvInitAlertAsync h (init (handler_of a l) a);
                  EvUnregisterHandler old])); [exact Hinv | | | | |].
      * cbn. rewrite <- !app_assoc. reflexivity.
      * cbn. apply heap_insert_fresh_subseteq.
      * intros n' h' Hn'. destruct (Hreg _ _ Hn') as [|Hnew]; [by left|].
        right. destruct Hnew as (Hh' & obj & rv & H1 & H2 & Hin & H3).
        split; [done|]. exists obj, rv. split_and!; try done.
        apply in_app_or in Hin as [Hin|Hin]; apply in_or_app;
          [by left | right]. cbn in Hin |- *. tauto.
      * intros h'. rewrite unregister_calls_replaced.
        case_decide; lia.
      * intros h'. rewrite unregister_calls_replaced.
        case_decide as Hh; [subst h'|done]. intros _. split; [eauto|].
        cbn. intros n'. rewrite lookup_insert. case_decide as Hn'.
        -- intros [= Heq]. apply (Hfresh n). by rewrite Heq.
        -- intros Hn''. apply Hn'. symmetry. by eapply lifecycle_one_name.
    + eapply (lifecycle_step w _
                (map EvGetter field_getters ++
                 [EvNew h l; EvInsertOrUpdate n h;
                  EvInitAlertAsync h (init (handler_of a l) a)]));
        [exact Hinv | | | | |].
      * cbn. rewrite <- ?app_assoc. reflexivity.
      * cbn. apply heap_insert_fresh_subseteq.
      * cbn. exact Hreg.
      * intros h'. rewrite unregister_calls_inserted. lia.
      * intros h'. by rewrite unregister_calls_inserted.
Qed.

Lemma GetXmlStringForWindowsAlert_lifecycle xml a w :
  lifecycle_invariant w →
  lifecycle_invariant (GetXmlStringForWindowsAlert xml a w).2.
Proof.
  intros Hinv. destruct a as [a|]; [|done].
  rewrite GetXmlStringForWindowsAlert_eq. cbn zeta.
  destruct (try_getters a field_getters).2 eqn:Hg.
  { eapply lifecycle_quiet; [exact Hinv | reflexivity | done | done |].
    intros h. apply unregister_calls_getters. }
  destruct (NS_FAILED _); cbn [snd];
    (eapply lifecycle_quiet;
     [exact Hinv | cbn; rewrite <- ?app_assoc; reflexivity
     | cbn; apply heap_insert_fresh_subseteq | done
     | intros h; cbn [app]; count_unregister_calls]).
Qed.

(** [Init] leaves the table, the objects and the flag alone and unregisters
    nothing. *)
Lemma Init_frame p w :
  mActiveHandlers (Init p w).2 = mActiveHandlers w ∧
  heap (Init p w).2 = heap w ∧
  mSuppressForScreenSharing (Init p w).2 = mSuppressForScreenSharing w ∧
  ∃ evs, trace (Init p w).2 = trace w ++ evs ∧
         ∀ h, unregister_calls h evs = 0%nat.
Proof.
  unfold Init, run, bind, when, update, Return, ret.
  destruct (IsWin8OrLater p), (GetAppUserModelID p).1,
    (non_null (PR_GetEnv p _)), (NS_FAILED _), (GetObserverService p);
    cbn; (split_and!; [done | done | done |]);
    first [ by exists []; split; [by rewrite app_nil_r | done]
          | eexists; split; [rewrite <- ?app_assoc; reflexivity |];
            intros h; count_unregister_calls ].
Qed.

Lemma Init_lifecycle p w :
  lifecycle_invariant w → lifecycle_invariant (Init p w).2.
Proof.
  intros Hinv. destruct (Init_frame p w) as (Hm & Hh & _ & evs & Htr & Hev).
  eapply lifecycle_quiet; [exact Hinv | exact Htr | by rewrite Hh | done
                          | done].
Qed.

(** The invariant holds in every state the service can be in. *)
Lemma reachable_lifecycle w : reachable w → lifecycle_invariant w.
Proof.
  induction 1;
    auto using lifecycle_constructed, Init_lifecycle, Observe_lifecycle,
      ShowAlert_lifecycle, GetXmlStringForWindowsAlert_lifecycle,
      CloseAlert_lifecycle, RemoveHandler_lifecycle.
Qed.

(** X1. Between two calls a handler of the table is an object built for
    the very name it sits under, and it sits under no other name. *)
Theorem registered_handler_built_for_its_name
    (w : World) (n : string) (h : Handler) :
  reachable w →
  mActiveHandlers w !! n = Some h →
  (∃ obj, heap w !! h = Some obj ∧ mName obj = n) ∧
  (∀ n', mActiveHandlers w !! n' = Some h → n' = n).
Proof.
  intros Hinv%reachable_lifecycle Hn. split.
  - destruct Hinv as (Hobj & _). eauto.
  - intros n' Hn'. by eapply lifecycle_one_name.
Qed.

(** X2. Between two calls the submission of every handler of the table was
    accepted by [InitAlertAsync], and [UnregisterHandler] was not yet called
    on it. *)
Theorem registered_handler_accepted_and_live
    (w : World) (n : string) (h : Handler) :
  reachable w →
  mActiveHandlers w !! n = Some h →
  (∃ rv, In (EvInitAlertAsync h rv) (trace w) ∧ NS_FAILED rv = false) ∧
  unregister_calls h (trace w) = 0%nat.
Proof.
  intros (_ & Hlive & _ & _ & Hacc)%reachable_lifecycle Hn. eauto.
Qed.

(** X3. Whatever the sequence of calls, the service calls
    [UnregisterHandler] at most once on a handler, and never on a handler
    that was not built. *)
Theorem no_handler_unregistered_twice (w : World) (h : Handler) :
  reachable w →
  (unregister_calls h (trace w) ≤ 1)%nat ∧
  (heap w !! h = None → unregister_calls h (trace w) = 0%nat).
Proof.
  intros (_ & _ & Honce & Hnone & _)%reachable_lifecycle. eauto.
Qed.

(** ** What [ShowAlert] leaves alone *)

(** X5. Whatever its outcome, [ShowAlert] leaves the entries of all other
    names, the flag and the thread as they were. *)
Theorem ShowAlert_other_names_untouched
    (init : ToastNotificationHandler → nsIAlertNotification → nsresult)
    (a : nsIAlertNotification) (l : option nsIObserver) (w : World)
    (n' : string) :
  n' ≠ (GetName a).2 →
  let w' := (ShowAlert init (Some a) l w).2 in
  mActiveHandlers w' !! n' = mActiveHandlers w !! n' ∧
  mSuppressForScreenSharing w' = mSuppressForScreenSharing w ∧
  mBackgroundThread w' = mBackgroundThread w.
Proof.
  intros Hne w'. subst w'. rewrite ShowAlert_eq.
  destruct (mSuppressForScreenSharing w) eqn:Hs; [done|]. cbn zeta.
  destruct (try_getters a field_getters).2; [done|].
  destruct (NS_FAILED _); cbn.
  - rewrite delete_insert_eq, lookup_delete_ne by done. by rewrite Hs.
  - destruct (mActiveHandlers w !! (GetName a).2); cbn;
      rewrite lookup_insert_ne by done; by rewrite Hs.
Qed.

(** X6. When the table has no entry for the name of the alert and the
    submission by [InitAlertAsync] fails, [ShowAlert] leaves the table
    exactly as it was; the handler it built stays an object. *)
Theorem ShowAlert_submission_failure_without_old_handler
    (init : ToastNotificationHandler → nsIAlertNotification → nsresult)
    (a : nsIAlertNotification) (l : option nsIObserver) (w : World)
    (h : Handler) (rv : nsresult) :
  mActiveHandlers w !! (GetName a).2 = None →
  In (EvInitAlertAsync h rv) (events (ShowAlert init (Some a) l) w) →
  NS_FAILED rv = true →
  let r := ShowAlert init (Some a) l w in
  r.1 = rv ∧
  mActiveHandlers r.2 = mActiveHandlers w ∧
  heap r.2 = <[h := handler_of a l]> (heap w) ∧
  heap w !! h = None.
Proof.
  intros Hnone (Hs & Hg & -> & ->)%ShowAlert_submitted_inv Hrv r. subst r.
  rewrite (ShowAlert_rejected_eq _ _ _ _ Hs Hg Hrv). cbn. split_and!.
  - done.
  - rewrite delete_insert_eq. by apply delete_id.
  - done.
  - apply fresh_handler_unused.
Qed.

(** ** How the methods compose *)

(** X7. [CloseAlert] of the name right after a [ShowAlert] that went through
    removes the entry and unregisters the handler that call built; the table
    is then the old one without the name, and the old one itself when the
    name was new. *)
Theorem CloseAlert_after_ShowAlert
    (init : ToastNotificationHandler → nsIAlertNotification → nsresult)
    (a : nsIAlertNotification) (l : option nsIObserver) (w : World) :
  mSuppressForScreenSharing w = false →
  NS_FAILED (ShowAlert init (Some a) l w).1 = false →
  let n := (GetName a).2 in
  let w1 := (ShowAlert init (Some a) l w).2 in
  ∃ h,
    heap w !! h = None ∧
    heap w1 !! h = Some (handler_of a l) ∧
    events (CloseAlert n) w1 = [EvRemove n; EvUnregisterHandler h] ∧
    mActiveHandlers (CloseAlert n w1).2 = delete n (mActiveHandlers w) ∧
    (mActiveHandlers w !! n = None →
     mActiveHandlers (CloseAlert n w1).2 = mActiveHandlers w).
Proof.
  intros Hs Hok n w1.
  destruct (ShowAlert_succeeded_inv _ _ _ _ Hs Hok) as [Hg Hrv].
  exists (fresh (dom (heap w))).
  assert (mActiveHandlers w1 = <[n := fresh (dom (heap w))]>
                                 (mActiveHandlers w) ∧
          heap w1 = <[fresh (dom (heap w)) := handler_of a l]> (heap w))
    as [Hreg Hheap].
  { subst w1. rewrite (ShowAlert_accepted_eq _ _ _ _ Hs Hg Hrv).
    by destruct (mActiveHandlers w !! (GetName a).2). }
  assert (mActiveHandlers (CloseAlert n w1).2 = delete n (mActiveHandlers w))
    as Hclosed.
  { rewrite CloseAlert_eq, Hreg, lookup_insert_eq. cbn.
    by rewrite Hreg, delete_insert_eq. }
  split_and!.
  - apply fresh_handler_unused.
  - rewrite Hheap. apply lookup_insert_eq.
  - unfold events. rewrite CloseAlert_eq, Hreg, lookup_insert_eq.
    by apply emitted_log.
  - done.
  - intros Hnone. rewrite Hclosed. by apply delete_id.
Qed.

(** X8. For the handler the table holds under a name, [CloseAlert] of the
    name and [RemoveHandler] of the handler do the same; a second
    [RemoveHandler] changes nothing. *)
Theorem CloseAlert_is_RemoveHandler_of_current
    (n : string) (h : Handler) (w : World) :
  mActiveHandlers w !! n = Some h →
  (CloseAlert n w).2 = RemoveHandler n h w ∧
  RemoveHandler n h (RemoveHandler n h w) = RemoveHandler n h w ∧
  CloseAlert n (RemoveHandler n h w) = (NS_OK, RemoveHandler n h w).
Proof.
  intros Hn. rewrite CloseAlert_eq, Hn.
  rewrite (RemoveHandler_eq n h w), decide_True by done.
  rewrite RemoveHandler_eq, CloseAlert_eq. cbn.
  rewrite lookup_delete_eq. by rewrite decide_False.
Qed.

(** X9. After [Observe] nothing is active: [IsActiveHandler] is false for
    every name and handler, and [CloseAlert], [RemoveHandler] and a second
    [Observe] change nothing. *)
Theorem nothing_active_after_Observe
    (w : World) (n : string) (h : Handler) :
  let w' := (Observe w).2 in
  IsActiveHandler n h w' = (inr false, w') ∧
  CloseAlert n w' = (NS_OK, w') ∧
  RemoveHandler n h w' = w' ∧
  Observe w' = (NS_OK, w').
Proof.
  intros w'.
  assert (mActiveHandlers w' = ∅) as Hempty.
  { subst w'. rewrite Observe_eq. cbn. apply foldl_delete_all. }
  split_and!.
  - rewrite IsActiveHandler_eq, Hempty, lookup_empty.
    by rewrite bool_decide_eq_false_2.
  - by rewrite CloseAlert_eq, Hempty, lookup_empty.
  - by rewrite RemoveHandler_eq, Hempty, lookup_empty, decide_False.
  - rewrite (Observe_eq w'), Hempty, map_to_list_empty. cbn.
    f_equal. apply World_eq; cbn; try done. by rewrite app_nil_r.
Qed.

(** X10. Whatever the state, [Observe] makes two calls per entry, and no
    other: taking the entries of the table in some order, each once, the calls
    are [Remove] of the name of the entry, directly followed by
    [UnregisterHandler] of the handler that sat under that name; the objects,
    the flag and the thread are as they were. *)
Theorem Observe_calls_per_entry (w : World) :
  (∃ entries,
     entries ≡ₚ map_to_list (mActiveHandlers w) ∧
     events Observe w =
       flat_map (λ e, [EvRemove e.1; EvUnregisterHandler e.2]) entries) ∧
  length (events Observe w) = (2 * size (mActiveHandlers w))%nat ∧
  heap (Observe w).2 = heap w ∧
  mSuppressForScreenSharing (Observe w).2 = mSuppressForScreenSharing w ∧
  mBackgroundThread (Observe w).2 = mBackgroundThread w.
Proof.
  unfold events. rewrite Observe_eq. cbn zeta. cbn [snd].
  rewrite emitted_log by done. split_and!; try done.
  - by exists (map_to_list (mActiveHandlers w)).
  - rewrite <- length_map_to_list.
    induction (map_to_list (mActiveHandlers w)) as [|e es IH]; [done|].
    cbn. rewrite IH. lia.
Qed.

(** X11. The flag does not touch the ways out: with the flag set to any
    value first, [CloseAlert], [RemoveHandler] and [Observe] give the same
    code and do to the rest of the state what they do without. *)
Theorem suppression_does_not_affect_teardown
    (b : bool) (n : string) (h : Handler) (w : World) :
  let ws := (SetSuppressForScreenSharing b w).2 in
  CloseAlert n ws =
    ((CloseAlert n w).1, (SetSuppressForScreenSharing b (CloseAlert n w).2).2) ∧
  RemoveHandler n h ws =
    (SetSuppressForScreenSharing b (RemoveHandler n h w)).2 ∧
  Observe ws =
    ((Observe w).1, (SetSuppressForScreenSharing b (Observe w).2).2).
Proof.
  intros ws. subst ws. split_and!.
  - rewrite !CloseAlert_eq. cbn. by destruct (mActiveHandlers w !! n).
  - rewrite !RemoveHandler_eq. cbn. by case_decide.
  - by rewrite !Observe_eq.
Qed.

(** ** Rendering *)

Lemma try_getters_all_succeed a gs :
  (∀ g, g ∈ gs → NS_FAILED (getter_code a g) = false) →
  (try_getters a gs).2 = None.
Proof.
  induction gs as [|g gs IH]; [done|]. intros Hok. cbn.
  rewrite (Hok g) by left. cbn. apply IH. intros g' Hg'. apply Hok.
  by right.
Qed.

(** X13. When the eight field getters succeed and [GetImageURL] fails,
    [GetXmlStringForWindowsAlert] gives the code of [GetImageURL] and no
    string; by then it has built the handler, but it does not call
    [CreateToastXmlString], and the table is as it was. *)
Theorem GetXmlStringForWindowsAlert_image_failure
    (xml : ToastNotificationHandler → string → nsresult * string)
    (a : nsIAlertNotification) (w : World) :
  (∀ g, g ∈ field_getters → NS_FAILED (getter_code a g) = false) →
  NS_FAILED (GetImageURL a).1 = true →
  let r := GetXmlStringForWindowsAlert xml (Some a) w in
  r.1 = ((GetImageURL a).1, None) ∧
  (∃ h, heap w !! h = None ∧
        heap r.2 !! h = Some (handler_of a None) ∧
        emitted w r.2 =
          map EvGetter field_getters ++ [EvNew h None; EvGetter gImageURL]) ∧
  mActiveHandlers r.2 = mActiveHandlers w.
Proof.
  intros Hg%try_getters_all_succeed Himg r. subst r.
  rewrite GetXmlStringForWindowsAlert_eq. cbn zeta.
  rewrite Hg, (try_getters_None _ _ Hg), Himg. cbn [fst snd]. split_and!.
  - done.
  - exists (fresh (dom (heap w))). split_and!.
    + apply fresh_handler_unused.
    + cbn. apply lookup_insert_eq.
    + apply emitted_app. cbn. by rewrite <- !app_assoc.
  - done.
Qed.

(** ** The order of the getters *)

Lemma try_getters_first_failure a gs k :
  first_failure a gs k →
  try_getters a gs = (take (S k) gs, gs !! k).
Proof.
  revert k. induction gs as [|g gs IH]; intros k [[g' [Hk Hg']] Hbefore].
  { by rewrite lookup_nil in Hk. }
  destruct k as [|k]; cbn in Hk.
  - injection Hk as ->. cbn. rewrite Hg'. by rewrite take_0.
  - cbn [try_getters]. rewrite (Hbefore 0%nat g) by (done || lia).
    rewrite (IH k); [done|]. split; [eauto|].
    intros j g'' Hj Hg''. apply (Hbefore (S j)); [lia | done].
Qed.

(** X14. The getters are called in the order cookie, name, title, text,
    textClickable, source, requireInteraction, actions, up to the first that
    fails: however many would fail, the method gives the code of the first,
    and the getters after it are not called. *)
Theorem getters_called_until_first_failure
    (init : ToastNotificationHandler → nsIAlertNotification → nsresult)
    (xml : ToastNotificationHandler → string → nsresult * string)
    (a : nsIAlertNotification) (l : option nsIObserver) (w : World)
    (k : nat) (g : Getter) :
  first_failure a field_getters k →
  field_getters !! k = Some g →
  (mSuppressForScreenSharing w = false →
   ShowAlert init (Some a) l w =
     (getter_code a g, log (map EvGetter (take (S k) field_getters)) w)) ∧
  GetXmlStringForWindowsAlert xml (Some a) w =
    ((getter_code a g, None),
     log (map EvGetter (take (S k) field_getters)) w).
Proof.
  intros Hfirst%try_getters_first_failure Hk. split.
  - intros Hs. rewrite ShowAlert_eq, Hs. cbn zeta.
    by rewrite Hfirst, Hk.
  - rewrite GetXmlStringForWindowsAlert_eq. cbn zeta.
    by rewrite Hfirst, Hk.
Qed.

(** ** The same name twice *)

(** X15. Two alerts of one name shown one after the other, both going
    through: the table holds the handler of the second, which is another
    object than the handler of the first; the second call unregistered the
    first handler once and the second handler not at all; a late
    [RemoveHandler] by the first handler changes nothing. *)
Theorem ShowAlert_twice_same_name
    (init : ToastNotificationHandler → nsIAlertNotification → nsresult)
    (a1 a2 : nsIAlertNotification) (l1 l2 : option nsIObserver) (w : World) :
  reachable w →
  mSuppressForScreenSharing w = false →
  (GetName a1).2 = (GetName a2).2 →
  NS_FAILED (ShowAlert init (Some a1) l1 w).1 = false →
  let w1 := (ShowAlert init (Some a1) l1 w).2 in
  NS_FAILED (ShowAlert init (Some a2) l2 w1).1 = false →
  let w2 := (ShowAlert init (Some a2) l2 w1).2 in
  let n := (GetName a2).2 in
  ∃ h1 h2,
    h1 ≠ h2 ∧
    mActiveHandlers w1 !! n = Some h1 ∧
    mActiveHandlers w2 !! n = Some h2 ∧
    heap w2 !! h1 = Some (handler_of a1 l1) ∧
    heap w2 !! h2 = Some (handler_of a2 l2) ∧
    unregister_calls h1 (events (ShowAlert init (Some a2) l2) w1) = 1%nat ∧
    unregister_calls h2 (trace w2) = 0%nat ∧
    RemoveHandler n h1 w2 = w2.
Proof.
  intros Hreach Hs Hname Hok1 w1 Hok2 w2 n.
  destruct (ShowAlert_succeeded_inv _ _ _ _ Hs Hok1) as [Hg1 Hrv1].
  assert (mActiveHandlers w1 = <[n := fresh (dom (heap w))]>
                                 (mActiveHandlers w) ∧
          heap w1 = <[fresh (dom (heap w)) := handler_of a1 l1]> (heap w) ∧
          mSuppressForScreenSharing w1 = false) as (Hreg1 & Hheap1 & Hs1).
  { subst w1 n. rewrite (ShowAlert_accepted_eq _ _ _ _ Hs Hg1 Hrv1), <- Hname.
    by destruct (mActiveHandlers w !! (GetName a1).2). }
  set (h1 := fresh (dom (heap w))) in *.
  assert (mActiveHandlers w1 !! n = Some h1) as Hn1.
  { rewrite Hreg1. apply lookup_insert_eq. }
  destruct (ShowAlert_succeeded_inv _ _ _ _ Hs1 Hok2) as [Hg2 Hrv2].
  set (h2 := fresh (dom (heap w1))).
  assert (w2 = log [EvUnregisterHandler h1]
                 (inserted a2 l2 (init (handler_of a2 l2) a2) w1)) as Hw2.
  { subst w2. rewrite (ShowAlert_accepted_eq _ _ _ _ Hs1 Hg2 Hrv2).
    fold n. by rewrite Hn1. }
  assert (h1 ≠ h2) as Hne.
  { intros Heq. pose proof (fresh_handler_unused w1) as Hfresh.
    fold h2 in Hfresh. rewrite <- Heq, Hheap1, lookup_insert_eq in Hfresh.
    done. }
  assert (mActiveHandlers w2 !! n = Some h2) as Hn2.
  { rewrite Hw2. cbn. apply lookup_insert_eq. }
  exists h1, h2. split_and!; try done.
  - rewrite Hw2. cbn. rewrite lookup_insert_ne by done.
    rewrite Hheap1. apply lookup_insert_eq.
  - rewrite Hw2. cbn. apply lookup_insert_eq.
  - unfold events. fold w2. rewrite Hw2.
    rewrite (emitted_app
               (map EvGetter field_getters ++
                [EvNew h2 l2; EvInsertOrUpdate n h2;
                 EvInitAlertAsync h2 (init (handler_of a2 l2) a2);
                 EvUnregisterHandler h1]))
      by (cbn; rewrite <- !app_assoc; reflexivity).
    rewrite unregister_calls_replaced. by rewrite decide_True.
  - assert (reachable w2) as Hreach2.
    { subst w2 w1. by do 2 apply reach_ShowAlert. }
    apply reachable_lifecycle in Hreach2 as (_ & Hlive & _). by eapply Hlive.
  - rewrite RemoveHandler_eq, decide_False; [done|]. rewrite Hn2. congruence.
Qed.

(** ** The remaining entry points *)

(** X16. [ShowAlertNotification] and [ShowPersistentNotification] lead from
    states of the service to states of the service, so that what holds
    between calls holds with them, too; the do-not-disturb methods fail with
    NS_ERROR_NOT_IMPLEMENTED and change nothing. *)
Theorem remaining_entry_points_stay_reachable
    (init : ToastNotificationHandler → nsIAlertNotification → nsresult)
    (create : option (AlertArguments → bool → list Z →
                      nsresult * nsIAlertNotification))
    (args : AlertArguments) (data : string)
    (a : option nsIAlertNotification) (l : option nsIObserver) (b : bool)
    (w : World) :
  reachable w →
  reachable (ShowAlertNotification init create args l w).2 ∧
  reachable (ShowPersistentNotification init data a l w).2 ∧
  SetManualDoNotDisturb b w = (NS_ERROR_NOT_IMPLEMENTED, w) ∧
  GetManualDoNotDisturb w = ((NS_ERROR_NOT_IMPLEMENTED, None), w) ∧
  NS_FAILED NS_ERROR_NOT_IMPLEMENTED = true.
Proof.
  intros Hreach. split_and!; try done.
  - unfold ShowAlertNotification, run, bind, when, Return, ret.
    destruct create as [alert|]; [|done].
    destruct (NS_FAILED (alert args false []).1); [done|].
    cbn. by apply reach_ShowAlert.
  - by apply reach_ShowAlert.
Qed.

(** X17. With the flag set, [ShowAlertNotification] changes nothing, but it
    still creates and initialises the alert first: it gives NS_ERROR_FAILURE
    when the alert cannot be created, the code of [Init] when that fails, and
    NS_OK otherwise. *)
Theorem ShowAlertNotification_suppressed
    (init : ToastNotificationHandler → nsIAlertNotification → nsresult)
    (create : option (AlertArguments → bool → list Z →
                      nsresult * nsIAlertNotification))
    (args : AlertArguments) (l : option nsIObserver) (w : World) :
  mSuppressForScreenSharing w = true →
  ShowAlertNotification init create args l w =
  (match create with
   | None => NS_ERROR_FAILURE
   | Some alert =>
       if NS_FAILED (alert args false []).1 then (alert args false []).1
       else NS_OK
   end, w).
Proof.
  intros Hs. unfold ShowAlertNotification, run, bind, when, Return, ret.
  destruct create as [alert|]; [|done].
  destruct (NS_FAILED (alert args false []).1); [done|].
  cbn. by rewrite ShowAlert_suppressed_eq.
Qed.

(** ** Start-up and the thread *)

(** X18. When [Init] does not fail, the Windows is 8 or later, the
    application id was found or XPCSHELL_TEST_PROFILE_DIR is set, the thread
    was created without failure and is what [mBackgroundThread] holds; the
    code is NS_OK. *)
Theorem Init_success_means_supported (p : Platform) (w : World) :
  NS_FAILED (Init p w).1 = false →
  let created := NS_NewNamedThread p "ToastBgThread" in
  IsWin8OrLater p = true ∧
  ((GetAppUserModelID p).1 = true ∨
   is_Some (PR_GetEnv p "XPCSHELL_TEST_PROFILE_DIR")) ∧
  NS_FAILED created.1 = false ∧
  (Init p w).1 = NS_OK ∧
  mBackgroundThread (Init p w).2 = created.2.
Proof.
  unfold Init, run, bind, when, update, Return, ret.
  destruct (IsWin8OrLater p); cbn [negb]; [|by intros [=]].
  destruct (GetAppUserModelID p).1 eqn:Hid; cbn [negb].
  - destruct (NS_FAILED (NS_NewNamedThread p _).1) eqn:Hrv; cbn.
    + by rewrite Hrv.
    + intros _. split_and!; auto; by destruct (GetObserverService p).
  - destruct (PR_GetEnv p _) as [v|] eqn:Henv; cbn; [|by intros [=]].
    destruct (NS_FAILED (NS_NewNamedThread p _).1) eqn:Hrv; cbn.
    + by rewrite Hrv.
    + intros _. split_and!; eauto; by destruct (GetObserverService p).
Qed.

Lemma ShowAlert_members init a l w :
  mSuppressForScreenSharing (ShowAlert init a l w).2 =
    mSuppressForScreenSharing w ∧
  mBackgroundThread (ShowAlert init a l w).2 = mBackgroundThread w.
Proof.
  destruct a as [a|]; [|done]. rewrite ShowAlert_eq.
  destruct (mSuppressForScreenSharing w) eqn:Hs; [done|]. cbn zeta.
  destruct (try_getters a field_getters).2; [done|].
  destruct (NS_FAILED _); [done|].
  by destruct (mActiveHandlers w !! _).
Qed.

Lemma GetXmlStringForWindowsAlert_members xml a w :
  mSuppressForScreenSharing (GetXmlStringForWindowsAlert xml a w).2 =
    mSuppressForScreenSharing w ∧
  mBackgroundThread (GetXmlStringForWindowsAlert xml a w).2 =
    mBackgroundThread w.
Proof.
  destruct a as [a|]; [|done]. rewrite GetXmlStringForWindowsAlert_eq.
  cbn zeta. destruct (try_getters a field_getters).2; [done|].
  by destruct (NS_FAILED _).
Qed.

Lemma CloseAlert_members n w :
  mSuppressForScreenSharing (CloseAlert n w).2 = mSuppressForScreenSharing w ∧
  mBackgroundThread (CloseAlert n w).2 = mBackgroundThread w.
Proof. rewrite CloseAlert_eq. by destruct (mActiveHandlers w !! n). Qed.

Lemma RemoveHandler_members n h w :
  mSuppressForScreenSharing (RemoveHandler n h w) =
    mSuppressForScreenSharing w ∧
  mBackgroundThread (RemoveHandler n h w) = mBackgroundThread w.
Proof. rewrite RemoveHandler_eq. by case_decide. Qed.

Lemma other_calls_members w w' :
  rtc other_call w w' →
  mSuppressForScreenSharing w' = mSuppressForScreenSharing w ∧
  mBackgroundThread w' = mBackgroundThread w.
Proof.
  induction 1 as [w|w w1 w' Hstep _ [IHs IHt]]; [done|].
  rewrite IHs, IHt. destruct Hstep.
  - apply ShowAlert_members.
  - apply GetXmlStringForWindowsAlert_members.
  - apply CloseAlert_members.
  - apply RemoveHandler_members.
  - rewrite Observe_eq. done.
Qed.

(** X19. Once [Init] went through and gave a thread, [BackgroundDispatch]
    has that thread to dispatch to, also after any sequence of [ShowAlert],
    [GetXmlStringForWindowsAlert], [CloseAlert], [RemoveHandler] and
    [Observe]: none of them writes [mBackgroundThread]. *)
Theorem BackgroundDispatch_after_Init
    (dispatch : nsIThread → nsIRunnable → nsresult) (p : Platform)
    (w w' : World) (thread : nsIThread) (runnable : nsIRunnable) :
  NS_FAILED (Init p w).1 = false →
  (NS_NewNamedThread p "ToastBgThread").2 = Some thread →
  rtc other_call (Init p w).2 w' →
  BackgroundDispatch dispatch runnable w' =
    Some (dispatch thread runnable, w').
Proof.
  intros Hok Hthread [_ Hsame]%other_calls_members.
  unfold BackgroundDispatch. rewrite Hsame.
  assert (mBackgroundThread (Init p w).2 = Some thread) as ->; [|done].
  rewrite <- Hthread. revert Hok.
  unfold Init, run, bind, when, update, Return, ret.
  destruct (IsWin8OrLater p), (GetAppUserModelID p).1,
    (non_null (PR_GetEnv p _)), (NS_FAILED (NS_NewNamedThread p _).1) eqn:Hrv,
    (GetObserverService p); cbn; try done; by rewrite ?Hrv.
Qed.

(** X20. Once the flag is set it stays set through any sequence of
    [ShowAlert], [GetXmlStringForWindowsAlert], [CloseAlert], [RemoveHandler]
    and [Observe], and every [ShowAlert] of an alert gives NS_OK and changes
    nothing. *)
Theorem suppression_persists
    (init : ToastNotificationHandler → nsIAlertNotification → nsresult)
    (a : nsIAlertNotification) (l : option nsIObserver) (w w' : World) :
  rtc other_call (SetSuppressForScreenSharing true w).2 w' →
  mSuppressForScreenSharing w' = true ∧
  ShowAlert init (Some a) l w' = (NS_OK, w').
Proof.
  intros [Hflag _]%other_calls_members.
  assert (mSuppressForScreenSharing w' = true) as Hs by by rewrite Hflag.
  split; [done | by apply ShowAlert_suppressed_eq].
Qed.

(** * The properties on sample data *)

(** The scenario "show A, show A again, close A, close A again": the second
    alert replaces the first, whose handler is unregistered; closing removes
    the entry and unregisters the second handler; closing again does
    nothing. *)
Example scenario_show_show_close_close :
  let show t := ShowAlert Sample.init (Some (Sample.alert "A" t)) None in
  let w1 := (show "T1" constructed).2 in
  let w2 := (show "T2" w1).2 in
  let w3 := (CloseAlert "A" w2).2 in
  mActiveHandlers w1 = {[ "A" := 1%positive ]} ∧
  mActiveHandlers w2 = {[ "A" := 2%positive ]} ∧
  unregister_calls 1%positive (trace w2) = 1%nat ∧
  mActiveHandlers w3 = ∅ ∧
  unregister_calls 2%positive (trace w3) = 1%nat ∧
  CloseAlert "A" w3 = (NS_OK, w3).
Proof. vm_compute. repeat split. Qed.

Lemma one_alert_reachable : reachable Sample.one_alert.
Proof. apply reach_ShowAlert, reach_constructed. Defined.

(** C1, as stated, fails when the flag is set: [ShowAlert] gives NS_OK, but
    no handler is inserted and the table still holds the old one. *)
Lemma ShowAlert_suppressed_keeps_old_handler :
  let w := Sample.one_alert_suppressed in
  let call := ShowAlert Sample.init (Some (Sample.alert "A" "T2")) None in
  ¬ (mActiveHandlers w !! "A" = Some 1%positive →
     NS_FAILED (call w).1 = false →
     ∃ h, h ≠ 1%positive ∧
          In (EvInsertOrUpdate "A" h) (events call w) ∧
          mActiveHandlers (call w).2 !! "A" = Some h).
Proof.
  intros w call Hclaim.
  destruct Hclaim as (h & Hne & _ & Hh); [by vm_compute | by vm_compute |].
  apply Hne. vm_compute in Hh. congruence.
Qed.

Lemma ShowAlert_supersedes_old_handler_witness :
  let a := Sample.alert "A" "T2" in
  let w := Sample.one_alert in
  let r := ShowAlert Sample.init (Some a) None w in
  mActiveHandlers w !! "A" = Some 1%positive ∧
  NS_FAILED r.1 = false ∧
  ∃ h rv,
    h ≠ 1%positive ∧
    heap w !! h = None ∧
    heap r.2 !! h = Some (handler_of a None) ∧
    events (ShowAlert Sample.init (Some a) None) w =
      map EvGetter field_getters ++
      [EvNew h None; EvInsertOrUpdate "A" h; EvInitAlertAsync h rv;
       EvUnregisterHandler 1%positive] ∧
    r.1 = NS_OK ∧
    mActiveHandlers r.2 = <[ "A" := h ]> (mActiveHandlers w) ∧
    (∀ h', mActiveHandlers r.2 !! "A" = Some h' ↔ h' = h).
Proof.
  intros a w r. split; [by vm_compute|]. split; [by vm_compute|].
  apply (ShowAlert_supersedes_old_handler Sample.init a None w 1%positive).
  - exact one_alert_reachable.
  - by vm_compute.
  - by vm_compute.
  - by vm_compute.
Defined.

Lemma RemoveHandler_only_if_current_witness :
  let w := (ShowAlert Sample.init (Some (Sample.alert "A" "T2")) None
              Sample.one_alert).2 in
  mActiveHandlers w !! "A" = Some 2%positive ∧
  RemoveHandler "A" 1%positive w = w ∧
  mActiveHandlers (RemoveHandler "A" 1%positive w) !! "A" = Some 2%positive ∧
  mActiveHandlers (RemoveHandler "A" 2%positive w) =
    delete "A" (mActiveHandlers w) ∧
  emitted w (RemoveHandler "A" 2%positive w) =
    [EvRemove "A"; EvUnregisterHandler 2%positive].
Proof.
  intros w.
  destruct (RemoveHandler_only_if_current "A" 1%positive w)
    as (_ & Hstale & _ & _).
  destruct (RemoveHandler_only_if_current "A" 2%positive w)
    as (Hcurrent & _ & _ & _).
  destruct (Hstale 2%positive) as [Hsame Hkept];
    [by vm_compute | discriminate |].
  destruct Hcurrent as [Hgone Hcalls]; [by vm_compute|].
  split; [by vm_compute|]. split; [exact Hsame|]. split; [exact Hkept|].
  split; [exact Hgone | exact Hcalls].
Defined.

Lemma Observe_drains_registry_witness :
  let w := Sample.one_alert in
  mActiveHandlers w !! "A" = Some 1%positive ∧
  (Observe w).1 = NS_OK ∧
  mActiveHandlers (Observe w).2 = ∅ ∧
  unregister_calls 1%positive (events Observe w) = 1%nat.
Proof.
  intros w.
  destruct (Observe_drains_registry w one_alert_reachable)
    as (Hok & Hempty & Honce & _ & _).
  split; [by vm_compute|]. split; [exact Hok|]. split; [exact Hempty|].
  apply (Honce "A"). by vm_compute.
Defined.



Lemma ShowAlert_submission_failure_forgets_old_handler_witness :
  let a := Sample.alert_with_bad_image "A" "T2" in
  let w := Sample.one_alert in
  let call := ShowAlert Sample.init (Some a) None in
  let r := call w in
  mActiveHandlers w !! "A" = Some 1%positive ∧
  In (EvInitAlertAsync 2%positive NS_ERROR_FAILURE) (events call w) ∧
  r.1 = NS_ERROR_FAILURE ∧
  mActiveHandlers r.2 !! "A" = None ∧
  (∀ n', mActiveHandlers r.2 !! n' ≠ Some 1%positive) ∧
  unregister_calls 1%positive (events call w) = 0%nat ∧
  Forall (λ e, called_on e ≠ Some 1%positive) (events call w) ∧
  is_Some (heap w !! 1%positive) ∧
  heap r.2 !! 1%positive = heap w !! 1%positive.
Proof.
  intros a w call r.
  assert (In (EvInitAlertAsync 2%positive NS_ERROR_FAILURE) (events call w))
    as Hin.
  { vm_compute. tauto. }
  split; [by vm_compute|]. split; [exact Hin|].
  apply (ShowAlert_submission_failure_forgets_old_handler Sample.init
           a None w 1%positive 2%positive NS_ERROR_FAILURE).
  - exact one_alert_reachable.
  - by vm_compute.
  - exact Hin.
  - by vm_compute.
Defined.

Lemma getter_failure_aborts_call_witness :
  let a := Sample.alert_without_title "A" in
  let w := Sample.one_alert in
  let s := ShowAlert Sample.init (Some a) None w in
  let x := GetXmlStringForWindowsAlert Sample.xml (Some a) w in
  NS_FAILED (getter_code a gTitle) = true ∧
  In (EvGetter gTitle) (emitted w s.2) ∧
  In (EvGetter gTitle) (emitted w x.2) ∧
  (s.1 = NS_ERROR_FAILURE ∧ only_getters_called w s.2) ∧
  (x.1 = (NS_ERROR_FAILURE, None) ∧ only_getters_called w x.2) ∧
  ShowAlert Sample.init None None w = (NS_ERROR_INVALID_ARG, w) ∧
  GetXmlStringForWindowsAlert Sample.xml None w =
    ((NS_ERROR_INVALID_ARG, None), w).
Proof.
  intros a w s x.
  assert (In (EvGetter gTitle) (emitted w s.2)) as Hs.
  { vm_compute. tauto. }
  assert (In (EvGetter gTitle) (emitted w x.2)) as Hx.
  { vm_compute. tauto. }
  destruct (getter_failure_aborts_call Sample.init Sample.xml (Some a) None w)
    as [_ Hfail].
  destruct (Hfail a gTitle) as [HShow HXml];
    [done | apply list_elem_of_In; cbn; tauto | by vm_compute |].
  destruct (getter_failure_aborts_call Sample.init Sample.xml None None w)
    as [[Hnull1 Hnull2] _]; [done|].
  split; [by vm_compute|]. split; [exact Hs|]. split; [exact Hx|].
  split; [exact (HShow Hs)|]. split; [exact (HXml Hx)|].
  split; [exact Hnull1 | exact Hnull2].
Defined.

Lemma ShowAlert_suppressed_noop_witness :
  let a := Sample.alert "A" "T2" in
  let w := Sample.one_alert in
  let ws := (SetSuppressForScreenSharing true w).2 in
  mSuppressForScreenSharing w = false ∧
  ShowAlert Sample.init (Some a) None ws = (NS_OK, ws) ∧
  mActiveHandlers ws = mActiveHandlers w ∧
  (SetSuppressForScreenSharing false
     (ShowAlert Sample.init (Some a) None ws).2).2 = w.
Proof.
  intros a w ws.
  destruct (ShowAlert_suppressed_noop Sample.init a None w)
    as (_ & _ & Hnoop & _ & Hsame & _ & _ & Hback & _).
  split; [by vm_compute|]. split; [exact Hnoop|]. split; [exact Hsame|].
  apply Hback. by vm_compute.
Defined.

Lemma CloseAlert_succeeds_idempotent_witness :
  let w := Sample.one_alert in
  mActiveHandlers w !! "A" = Some 1%positive ∧
  mActiveHandlers w !! "B" = None ∧
  (CloseAlert "A" w).1 = NS_OK ∧
  mActiveHandlers (CloseAlert "A" w).2 = delete "A" (mActiveHandlers w) ∧
  events (CloseAlert "A") w = [EvRemove "A"; EvUnregisterHandler 1%positive] ∧
  CloseAlert "A" (CloseAlert "A" w).2 = (NS_OK, (CloseAlert "A" w).2) ∧
  CloseAlert "B" w = (NS_OK, w).
Proof.
  intros w.
  destruct (CloseAlert_succeeds_idempotent "A" w)
    as (Hok & _ & Hpresent & Hagain).
  destruct (CloseAlert_succeeds_idempotent "B" w) as (_ & Habsent & _ & _).
  destruct (Hpresent 1%positive) as [Hgone Hcalls]; [by vm_compute|].
  split; [by vm_compute|]. split; [by vm_compute|]. split; [exact Hok|].
  split; [exact Hgone|]. split; [exact Hcalls|]. split; [exact Hagain|].
  apply Habsent. by vm_compute.
Defined.

(** C8, as stated, fails on a Windows before 8: the variable
    XPCSHELL_TEST_PROFILE_DIR is set and the application id is there, yet
    [Init] gives NS_ERROR_NOT_IMPLEMENTED and creates no thread. *)
Lemma Init_old_windows_ignores_test_profile :
  let p := Sample.windows7_xpcshell in
  ¬ (IsWin8OrLater p = false →
     is_Some (PR_GetEnv p "XPCSHELL_TEST_PROFILE_DIR") →
     (GetAppUserModelID p).1 = true →
     NS_FAILED (Init p constructed).1 = false ∧
     In (EvNewNamedThread "ToastBgThread") (events (Init p) constructed)).
Proof.
  intros p Hclaim.
  destruct Hclaim as [Hok _]; [done | by eexists | done |].
  vm_compute in Hok. discriminate.
Qed.

Lemma Init_platform_checks_witness :
  let old := Sample.windows7_xpcshell in
  let test := Sample.windows10_xpcshell in
  IsWin8OrLater old = false ∧
  Init old constructed = (NS_ERROR_NOT_IMPLEMENTED, constructed) ∧
  IsWin8OrLater test = true ∧
  is_Some (PR_GetEnv test "XPCSHELL_TEST_PROFILE_DIR") ∧
  (Init test constructed).1 = NS_OK ∧
  mBackgroundThread (Init test constructed).2 = Some 1%positive ∧
  events (Init test) constructed =
    [EvNewNamedThread "ToastBgThread"; EvAddObserver "quit-application"].
Proof.
  intros old test.
  destruct (Init_platform_checks old constructed) as (Hold & _ & _).
  destruct (Init_platform_checks test constructed) as (_ & _ & Hgo).
  destruct Hgo as (Hrv & Hthread & Hevents);
    [done | right; by eexists |].
  split; [done|]. split; [by apply Hold|]. split; [done|].
  split; [by eexists|]. split; [exact Hrv|]. split; [exact Hthread|].
  exact Hevents.
Defined.

Lemma GetXmlStringForWindowsAlert_keeps_registry_witness :
  let a := Sample.alert "A" "T2" in
  let w := Sample.one_alert in
  let w' := (GetXmlStringForWindowsAlert Sample.xml (Some a) w).2 in
  In (EvNew 2%positive None) (emitted w w') ∧
  mActiveHandlers w' = mActiveHandlers w ∧
  mActiveHandlers w' !! "A" = Some 1%positive ∧
  heap w !! 2%positive = None ∧
  (∃ obj, heap w' !! 2%positive = Some obj ∧ mAlertListener obj = None) ∧
  mActiveHandlers
    (foldl (λ w a, (GetXmlStringForWindowsAlert Sample.xml a w).2)
       w [Some a; Some a; None]) = mActiveHandlers w.
Proof.
  intros a w w'.
  assert (In (EvNew 2%positive None) (emitted w w')) as Hnew.
  { vm_compute. tauto. }
  destruct (GetXmlStringForWindowsAlert_keeps_registry Sample.xml (Some a) w
              [Some a; None]) as (Hsame & _ & _ & Htransient & Hagain).
  destruct (Htransient _ _ Hnew) as (_ & Hfresh & Hobj).
  split; [exact Hnew|]. split; [exact Hsame|]. split; [by vm_compute|].
  split; [exact Hfresh|]. split; [exact Hobj | exact Hagain].
Defined.

(** ** The further properties on sample data *)

Lemma closed_alert_reachable : reachable (CloseAlert "A" Sample.one_alert).2.
Proof. apply reach_CloseAlert, one_alert_reachable. Defined.

Lemma registered_handler_built_for_its_name_witness :
  let w := Sample.one_alert in
  mActiveHandlers w !! "A" = Some 1%positive ∧
  (∃ obj, heap w !! 1%positive = Some obj ∧ mName obj = "A") ∧
  (∀ n', mActiveHandlers w !! n' = Some 1%positive → n' = "A").
Proof.
  intros w. split; [by vm_compute|].
  apply (registered_handler_built_for_its_name w "A" 1%positive
           one_alert_reachable).
  by vm_compute.
Defined.

Lemma registered_handler_accepted_and_live_witness :
  let w := Sample.one_alert in
  mActiveHandlers w !! "A" = Some 1%positive ∧
  (∃ rv, In (EvInitAlertAsync 1%positive rv) (trace w) ∧
         NS_FAILED rv = false) ∧
  unregister_calls 1%positive (trace w) = 0%nat.
Proof.
  intros w. split; [by vm_compute|].
  apply (registered_handler_accepted_and_live w "A" 1%positive
           one_alert_reachable).
  by vm_compute.
Defined.

Lemma no_handler_unregistered_twice_witness :
  let w := (CloseAlert "A" Sample.one_alert).2 in
  unregister_calls 1%positive (trace w) = 1%nat ∧
  (unregister_calls 1%positive (trace w) ≤ 1)%nat ∧
  (heap w !! 1%positive = None →
   unregister_calls 1%positive (trace w) = 0%nat).
Proof.
  intros w. split; [by vm_compute|].
  exact (no_handler_unregistered_twice w 1%positive closed_alert_reachable).
Defined.

Lemma superseded_handler_loses_witness :
  let a := Sample.alert "A" "T2" in
  let w := Sample.one_alert in
  let w' := (ShowAlert Sample.init (Some a) None w).2 in
  mActiveHandlers w !! "A" = Some 1%positive ∧
  IsActiveHandler "A" 1%positive w' = (inr false, w') ∧
  RemoveHandler "A" 1%positive w' = w'.
Proof.
  intros a w w'. split; [by vm_compute|].
  apply (superseded_handler_loses Sample.init a None w 1%positive).
  - exact one_alert_reachable.
  - by vm_compute.
  - by vm_compute.
  - by vm_compute.
Defined.

Lemma ShowAlert_other_names_untouched_witness :
  let a := Sample.alert "B" "T2" in
  let w := Sample.one_alert in
  let w' := (ShowAlert Sample.init (Some a) None w).2 in
  mActiveHandlers w' !! "A" = mActiveHandlers w !! "A" ∧
  mSuppressForScreenSharing w' = mSuppressForScreenSharing w ∧
  mBackgroundThread w' = mBackgroundThread w.
Proof.
  intros a w w'.
  apply (ShowAlert_other_names_untouched Sample.init a None w "A").
  by vm_compute.
Defined.

Lemma ShowAlert_submission_failure_without_old_handler_witness :
  let a := Sample.alert_with_bad_image "B" "T2" in
  let w := Sample.one_alert in
  let r := ShowAlert Sample.init (Some a) None w in
  mActiveHandlers w !! "B" = None ∧
  r.1 = NS_ERROR_FAILURE ∧
  mActiveHandlers r.2 = mActiveHandlers w ∧
  heap r.2 = <[2%positive := handler_of a None]> (heap w) ∧
  heap w !! 2%positive = None.
Proof.
  intros a w r. split; [by vm_compute|].
  apply (ShowAlert_submission_failure_without_old_handler Sample.init
           a None w 2%positive NS_ERROR_FAILURE).
  - by vm_compute.
  - vm_compute. tauto.
  - by vm_compute.
Defined.

Lemma CloseAlert_after_ShowAlert_witness :
  let a := Sample.alert "B" "T2" in
  let w := Sample.one_alert in
  let w1 := (ShowAlert Sample.init (Some a) None w).2 in
  mActiveHandlers w !! "B" = None ∧
  ∃ h,
    heap w !! h = None ∧
    heap w1 !! h = Some (handler_of a None) ∧
    events (CloseAlert "B") w1 = [EvRemove "B"; EvUnregisterHandler h] ∧
    mActiveHandlers (CloseAlert "B" w1).2 = delete "B" (mActiveHandlers w) ∧
    (mActiveHandlers w !! "B" = None →
     mActiveHandlers (CloseAlert "B" w1).2 = mActiveHandlers w).
Proof.
  intros a w w1. split; [by vm_compute|].
  apply (CloseAlert_after_ShowAlert Sample.init a None w).
  - by vm_compute.
  - by vm_compute.
Defined.

Lemma CloseAlert_is_RemoveHandler_of_current_witness :
  let w := Sample.one_alert in
  (CloseAlert "A" w).2 = RemoveHandler "A" 1%positive w ∧
  RemoveHandler "A" 1%positive (RemoveHandler "A" 1%positive w) =
    RemoveHandler "A" 1%positive w ∧
  CloseAlert "A" (RemoveHandler "A" 1%positive w) =
    (NS_OK, RemoveHandler "A" 1%positive w).
Proof.
  intros w. apply (CloseAlert_is_RemoveHandler_of_current "A" 1%positive w).
  by vm_compute.
Defined.

Lemma GetXmlStringForWindowsAlert_image_failure_witness :
  let a := Sample.alert_without_image "A" in
  let w := Sample.one_alert in
  let r := GetXmlStringForWindowsAlert Sample.xml (Some a) w in
  r.1 = (NS_ERROR_FAILURE, None) ∧
  (∃ h, heap w !! h = None ∧
        heap r.2 !! h = Some (handler_of a None) ∧
        emitted w r.2 =
          map EvGetter field_getters ++ [EvNew h None; EvGetter gImageURL]) ∧
  mActiveHandlers r.2 = mActiveHandlers w.
Proof.
  intros a w r.
  apply (GetXmlStringForWindowsAlert_image_failure Sample.xml a w).
  - intros g Hg. apply list_elem_of_In in Hg. cbn in Hg.
    repeat destruct Hg as [<-|Hg]; by vm_compute.
  - by vm_compute.
Defined.

Lemma two_failures_first_is_title :
  first_failure (Sample.alert_two_failures "A") field_getters 2.
Proof.
  split.
  - exists gTitle. split; by vm_compute.
  - intros j g Hj Hg. destruct j as [|[|j]]; [| |lia];
      cbn in Hg; injection Hg as <-; by vm_compute.
Defined.

Lemma getters_called_until_first_failure_witness :
  let a := Sample.alert_two_failures "A" in
  let w := Sample.one_alert in
  ShowAlert Sample.init (Some a) None w =
    (NS_ERROR_FAILURE, log [EvGetter gCookie; EvGetter gName; EvGetter gTitle] w) ∧
  GetXmlStringForWindowsAlert Sample.xml (Some a) w =
    ((NS_ERROR_FAILURE, None),
     log [EvGetter gCookie; EvGetter gName; EvGetter gTitle] w).
Proof.
  intros a w.
  destruct (getters_called_until_first_failure Sample.init Sample.xml a None w
              2 gTitle two_failures_first_is_title) as [HShow HXml].
  - by vm_compute.
  - split; [apply HShow; by vm_compute | exact HXml].
Defined.

Lemma ShowAlert_twice_same_name_witness :
  let a1 := Sample.alert "A" "T1" in
  let a2 := Sample.alert "A" "T2" in
  let w1 := (ShowAlert Sample.init (Some a1) None constructed).2 in
  let w2 := (ShowAlert Sample.init (Some a2) None w1).2 in
  ∃ h1 h2,
    h1 ≠ h2 ∧
    mActiveHandlers w1 !! "A" = Some h1 ∧
    mActiveHandlers w2 !! "A" = Some h2 ∧
    heap w2 !! h1 = Some (handler_of a1 None) ∧
    heap w2 !! h2 = Some (handler_of a2 None) ∧
    unregister_calls h1 (events (ShowAlert Sample.init (Some a2) None) w1)
      = 1%nat ∧
    unregister_calls h2 (trace w2) = 0%nat ∧
    RemoveHandler "A" h1 w2 = w2.
Proof.
  intros a1 a2 w1 w2.
  apply (ShowAlert_twice_same_name Sample.init a1 a2 None None constructed).
  - exact reach_constructed.
  - by vm_compute.
  - by vm_compute.
  - by vm_compute.
  - by vm_compute.
Defined.

Lemma remaining_entry_points_stay_reachable_witness :
  let w := Sample.one_alert in
  reachable
    (ShowAlertNotification Sample.init Sample.create Sample.arguments None w).2 ∧
  reachable
    (ShowPersistentNotification Sample.init "data"
       (Some (Sample.alert "A" "T2")) None w).2 ∧
  SetManualDoNotDisturb true w = (NS_ERROR_NOT_IMPLEMENTED, w) ∧
  GetManualDoNotDisturb w = ((NS_ERROR_NOT_IMPLEMENTED, None), w) ∧
  NS_FAILED NS_ERROR_NOT_IMPLEMENTED = true.
Proof.
  intros w.
  exact (remaining_entry_points_stay_reachable Sample.init Sample.create
           Sample.arguments "data" (Some (Sample.alert "A" "T2")) None true w
           one_alert_reachable).
Defined.

Lemma ShowAlertNotification_suppressed_witness :
  let w := Sample.one_alert_suppressed in
  mSuppressForScreenSharing w = true ∧
  ShowAlertNotification Sample.init Sample.create Sample.arguments None w =
    (NS_OK, w) ∧
  ShowAlertNotification Sample.init None Sample.arguments None w =
    (NS_ERROR_FAILURE, w).
Proof.
  intros w. split; [by vm_compute|]. split.
  - apply (ShowAlertNotification_suppressed Sample.init Sample.create
             Sample.arguments None w). by vm_compute.
  - apply (ShowAlertNotification_suppressed Sample.init None
             Sample.arguments None w). by vm_compute.
Defined.

Lemma Init_success_means_supported_witness :
  let p := Sample.windows10_xpcshell in
  NS_FAILED (Init p constructed).1 = false ∧
  IsWin8OrLater p = true ∧
  ((GetAppUserModelID p).1 = true ∨
   is_Some (PR_GetEnv p "XPCSHELL_TEST_PROFILE_DIR")) ∧
  NS_FAILED (NS_NewNamedThread p "ToastBgThread").1 = false ∧
  (Init p constructed).1 = NS_OK ∧
  mBackgroundThread (Init p constructed).2 =
    (NS_NewNamedThread p "ToastBgThread").2.
Proof.
  intros p. split; [by vm_compute|].
  apply (Init_success_means_supported p constructed). by vm_compute.
Defined.

Lemma BackgroundDispatch_after_Init_witness :
  let p := Sample.windows10_xpcshell in
  let w0 := (Init p constructed).2 in
  let w1 := (ShowAlert Sample.init (Some (Sample.alert "A" "T1")) None w0).2 in
  let w2 := (CloseAlert "A" w1).2 in
  BackgroundDispatch Sample.dispatch 7%positive constructed = None ∧
  BackgroundDispatch Sample.dispatch 7%positive w2 = Some (NS_OK, w2).
Proof.
  intros p w0 w1 w2. split; [by vm_compute|].
  apply (BackgroundDispatch_after_Init Sample.dispatch p constructed w2
           1%positive 7%positive).
  - by vm_compute.
  - by vm_compute.
  - eapply rtc_l; [apply other_ShowAlert|].
    apply rtc_once. apply other_CloseAlert.
Defined.

Lemma suppression_persists_witness :
  let ws := (SetSuppressForScreenSharing true Sample.one_alert).2 in
  let w' := (Observe (CloseAlert "A" ws).2).2 in
  mSuppressForScreenSharing w' = true ∧
  ShowAlert Sample.init (Some (Sample.alert "A" "T2")) None w' = (NS_OK, w').
Proof.
  intros ws w'.
  apply (suppression_persists Sample.init (Sample.alert "A" "T2") None
           Sample.one_alert w').
  eapply rtc_l; [apply other_CloseAlert|]. apply rtc_once. apply other_Observe.
Defined.
